(** * Smart Maritime Border Security System: the geofence core of [app3.py]

    A shallow embedding of the distance calculator ([haversine]), the boundary
    evaluator ([check_boundary_distance], [check_geofence_status]) and the
    decision engine ([analyze_boat_data]) of [src/app3.py], followed by the
    properties stated about them.

    Modelling conventions.
    - Python floats are idealised as real numbers ([R]); the only special
      value the core itself creates, [float('inf')], is kept as a separate
      constructor of [pyfloat].  Rounding, NaN and signed zeros are outside
      the model.
    - Python exceptions are values of [result]; [math.sqrt] and [math.asin]
      keep their domain checks ("math domain error").
    - The classifier and the scaler are external objects: they are functions
      that may raise.  Every call made to them, and every [print], is
      recorded in a trace, so that "the classifier is consulted" is a
      statement about the trace.
    - [f"{distance:.2f}"] is a parameter ([format_2f]): no claim depends on
      the digits of the message. *)

From Stdlib Require Import Reals Lra Psatz ZArith String List Bool.
Import ListNotations.

Local Open Scope string_scope.
Local Open Scope R_scope.

(** ** Exceptions and the error monad *)

Record PyException : Type := mkException {
  exc_type : string;
  exc_message : string
}.

Inductive result (A : Type) : Type :=
| Ok (a : A)
| Raise (e : PyException).

Arguments Ok {A} a.
Arguments Raise {A} e.

Definition rbind {A B : Type} (m : result A) (k : A -> result B) : result B :=
  match m with
  | Ok a => k a
  | Raise e => Raise e
  end.

Declare Scope result_scope.
Delimit Scope result_scope with result.
Notation "x <- m ;; k" := (rbind m (fun x => k))
  (at level 61, m at next level, right associativity) : result_scope.

Definition raises {A : Type} (m : result A) : Prop := exists e, m = Raise e.

(** ** Floats *)

(** A float is a real number or [float('inf')]. *)
Inductive pyfloat : Type :=
| Fin (r : R)
| Inf.

Definition Rltb (x y : R) : bool := if Rlt_dec x y then true else false.
Definition Rleb (x y : R) : bool := if Rle_dec x y then true else false.

(** [x < y] on floats. *)
Definition flt (x y : pyfloat) : bool :=
  match x, y with
  | Fin a, Fin b => Rltb a b
  | Fin _, Inf => true
  | Inf, _ => false
  end.

(** [x <= y] on floats. *)
Definition fle (x y : pyfloat) : bool :=
  match x, y with
  | Fin a, Fin b => Rleb a b
  | _, Inf => true
  | Inf, Fin _ => false
  end.

(** The order the two comparisons decide. *)
Definition pf_le (x y : pyfloat) : Prop :=
  match x, y with
  | Fin a, Fin b => a <= b
  | _, Inf => True
  | Inf, Fin _ => False
  end.

Definition pf_lt (x y : pyfloat) : Prop :=
  match x, y with
  | Fin a, Fin b => a < b
  | Fin _, Inf => True
  | Inf, _ => False
  end.

(** ** The [math] module *)

Definition math_domain_error : PyException :=
  mkException "ValueError" "math domain error".

Definition math_radians (x : R) : R := x * (PI / 180).

Definition math_sqrt (x : R) : result R :=
  if Rlt_dec x 0 then Raise math_domain_error else Ok (sqrt x).

Definition math_asin (x : R) : result R :=
  if Rlt_dec x (-1) then Raise math_domain_error
  else if Rlt_dec 1 x then Raise math_domain_error
  else Ok (asin x).

(** ** Configuration *)

Module Point.
Record t : Type := mk { lat : R; lng : R }.
End Point.

Record GeofenceConfig : Type := mkConfig {
  tamil_nadu_points : list Point.t;
  sri_lanka_points : list Point.t;
  boundary_line : list Point.t;
  safe_distance_km : R;
  center : Point.t;
  zoom_level : Z
}.

Definition GEOFENCE_CONFIG : GeofenceConfig := {|
  tamil_nadu_points := [
    Point.mk 13.6288 80.1931;
    Point.mk 13.0827 80.2707;
    Point.mk 12.6195 80.1952;
    Point.mk 11.9314 79.8333;
    Point.mk 11.4273 79.7662;
    Point.mk 10.7870 79.8380;
    Point.mk 10.3833 79.8500;
    Point.mk 9.2800 79.3100;
    Point.mk 8.7642 78.1348
  ];
  sri_lanka_points := [
    Point.mk 9.8152 80.0299;
    Point.mk 9.6700 80.2500;
    Point.mk 8.9500 81.0000;
    Point.mk 8.3400 81.3300;
    Point.mk 7.2800 81.6700
  ];
  boundary_line := [
    Point.mk 10.0500 80.0300;
    Point.mk 9.5000 79.9000;
    Point.mk 9.2200 79.8000;
    Point.mk 8.9000 79.7000;
    Point.mk 8.2000 79.3500
  ];
  safe_distance_km := 12;
  center := Point.mk 9.0000 79.8000;
  zoom_level := 7
|}.

(** ** Distance calculator *)

Definition haversine (lat1 lon1 lat2 lon2 : R) : result R :=
  let lat1 := math_radians lat1 in
  let lon1 := math_radians lon1 in
  let lat2 := math_radians lat2 in
  let lon2 := math_radians lon2 in
  let dlon := lon2 - lon1 in
  let dlat := lat2 - lat1 in
  let a := sin (dlat / 2) ^ 2 + cos lat1 * cos lat2 * sin (dlon / 2) ^ 2 in
  (s <- math_sqrt a ;;
   t <- math_asin s ;;
   let c := 2 * t in
   let r := 6371 in
   Ok (c * r))%result.

(** ** Boundary evaluator *)

(** The [for point in boundary_points] loop, with [min_distance] as the
    accumulator. *)
Fixpoint boundary_loop (lat lng : R) (boundary_points : list Point.t)
    (min_distance : pyfloat) : result pyfloat :=
  match boundary_points with
  | [] => Ok min_distance
  | point :: rest =>
      (distance <- haversine lat lng (Point.lat point) (Point.lng point) ;;
       boundary_loop lat lng rest
         (if flt (Fin distance) min_distance then Fin distance
          else min_distance))%result
  end.

Definition check_boundary_distance (lat lng : R)
    (boundary_points : list Point.t) : result pyfloat :=
  boundary_loop lat lng boundary_points Inf.

(** Zone status codes: 0 is the alert zone, 1 the safe zone. *)
Definition ALERT : Z := 0.
Definition SAFE : Z := 1.

Definition check_geofence_status (config : GeofenceConfig) (lat lng : R)
    : result (Z * pyfloat) :=
  (distance_to_boundary <-
     check_boundary_distance lat lng (boundary_line config) ;;
   if fle distance_to_boundary (Fin (safe_distance_km config))
   then Ok (0%Z, distance_to_boundary)
   else Ok (1%Z, distance_to_boundary))%result.

(** ** The classifier port *)

(** [scaler.transform] and [model.predict] take a two-dimensional array; the
    prediction is an array of integer labels.  Either call may raise. *)
Definition Scaler : Type := list (list R) -> result (list (list R)).
Definition Model : Type := list (list R) -> result (list Z).

(** What the evaluation does to the outside world, in order. *)
Inductive event : Type :=
| scaler_transform (X : list (list R))
| model_predict (X : list (list R))
| print (s : string).

Definition is_classifier_call (ev : event) : bool :=
  match ev with
  | scaler_transform _ | model_predict _ => true
  | print _ => false
  end.

(** ** The monad of [analyze_boat_data]

    The local variables the function reassigns, and the trace.  An exception
    leaves the store as it was when it was raised, as in Python. *)

Module Store.
Record t : Type := mk {
  is_suspicious : bool;
  model_prediction : option Z;
  zone_message : string;
  trace : list event
}.
End Store.

Definition M (A : Type) : Type := Store.t -> result A * Store.t.

Definition ret {A : Type} (a : A) : M A := fun st => (Ok a, st).

Definition bind {A B : Type} (m : M A) (k : A -> M B) : M B :=
  fun st =>
    match m st with
    | (Ok a, st') => k a st'
    | (Raise e, st') => (Raise e, st')
    end.

Declare Scope py_scope.
Delimit Scope py_scope with py.
Notation "x <- m ;; k" := (bind m (fun x => k))
  (at level 61, m at next level, right associativity) : py_scope.
Notation "m ;; k" := (bind m (fun _ => k))
  (at level 61, right associativity) : py_scope.

Definition lift {A : Type} (m : result A) : M A := fun st => (m, st).

(** [try: body except Exception as e: handler e]. *)
Definition try_except (body : M unit) (handler : PyException -> M unit)
    : M unit :=
  fun st =>
    match body st with
    | (Ok tt, st') => (Ok tt, st')
    | (Raise e, st') => handler e st'
    end.

Definition get : M Store.t := fun st => (Ok st, st).

Definition set_is_suspicious (b : bool) : M unit := fun st =>
  (Ok tt, Store.mk b (Store.model_prediction st) (Store.zone_message st)
            (Store.trace st)).

Definition set_model_prediction (p : option Z) : M unit := fun st =>
  (Ok tt, Store.mk (Store.is_suspicious st) p (Store.zone_message st)
            (Store.trace st)).

Definition set_zone_message (s : string) : M unit := fun st =>
  (Ok tt, Store.mk (Store.is_suspicious st) (Store.model_prediction st) s
            (Store.trace st)).

Definition emit (ev : event) : M unit := fun st =>
  (Ok tt, Store.mk (Store.is_suspicious st) (Store.model_prediction st)
            (Store.zone_message st) (Store.trace st ++ [ev])).

(** A call to an external function is recorded, then its outcome is taken. *)
Definition call {A : Type} (ev : event) (outcome : result A) : M A :=
  (emit ev ;; lift outcome)%py.

(** [xs[0]]. *)
Definition getitem0 {A : Type} (xs : list A) : result A :=
  match xs with
  | x :: _ => Ok x
  | [] =>
      Raise (mkException "IndexError"
               "index 0 is out of bounds for axis 0 with size 0")
  end.

(** ** Decision engine *)

Module Verdict.
Record t : Type := mk {
  is_suspicious : bool;
  zone_status : Z;
  zone_message : string;
  distance : pyfloat;
  model_prediction : option Z
}.
End Verdict.

Section DecisionEngine.

(** [f"{distance:.2f}"]. *)
Variable format_2f : pyfloat -> string.

(** The module-level globals. *)
Variable config : GeofenceConfig.
Variable model : option Model.
Variable scaler : option Scaler.

(** The body of the [try] block. *)
Definition secondary_verification (the_model : Model) (the_scaler : Scaler)
    (latitude longitude speed direction : R) (zone_status : Z) : M unit :=
  let behavior_label := 0%Z in
  let new_boat_data :=
    [[latitude; longitude; speed; direction; IZR zone_status;
      IZR behavior_label]] in
  (new_boat_scaled <-
     call (scaler_transform new_boat_data) (the_scaler new_boat_data) ;;
   predictions <-
     call (model_predict new_boat_scaled) (the_model new_boat_scaled) ;;
   prediction <- lift (getitem0 predictions) ;;
   set_model_prediction (Some prediction) ;;
   if (prediction =? 1)%Z then
     (set_is_suspicious true ;;
      st <- get ;;
      set_zone_message
        (Store.zone_message st ++ " WARNING: Behavior appears suspicious!"))
   else ret tt)%py.

Definition analyze_boat_data_body (latitude longitude speed direction : R)
    : M Verdict.t :=
  (zd <- lift (check_geofence_status config latitude longitude) ;;
   let '(zone_status, distance) := zd in
   set_is_suspicious false ;;
   set_model_prediction None ;;
   (if (zone_status =? 0)%Z then
      (set_is_suspicious true ;;
       set_zone_message
         ("ALERT: Boat is in restricted zone! " ++ format_2f distance
            ++ " km from boundary"))
    else
      (set_zone_message
         ("Safe: Boat is in safe zone. " ++ format_2f distance
            ++ " km from boundary") ;;
       match model, scaler with
       | Some the_model, Some the_scaler =>
           try_except
             (secondary_verification the_model the_scaler
                latitude longitude speed direction zone_status)
             (fun e => emit (print ("Error using model: " ++ exc_message e)))
       | _, _ => ret tt
       end)) ;;
   st <- get ;;
   ret (Verdict.mk (Store.is_suspicious st) zone_status
          (Store.zone_message st) distance (Store.model_prediction st)))%py.

(** The local variables are unbound on entry; every one of them is assigned
    before it is read, so the initial contents are never observed. *)
Definition empty_store : Store.t := Store.mk false None "" [].

(** The value returned (or the exception that escapes), and the trace. *)
Definition analyze_boat_data (latitude longitude speed direction : R)
    : result Verdict.t * list event :=
  let '(r, st) :=
    analyze_boat_data_body latitude longitude speed direction empty_store in
  (r, Store.trace st).

End DecisionEngine.

(** ** Start-up: loading the classifier

    The module-level [try] block that sets the globals [model] and [scaler]
    (its [print]s are left out).  [joblib.load] is given by its outcome. *)
Definition load_classifier (model_exists scaler_exists : bool)
    (load_model : result Model) (load_scaler : result Scaler)
    : option Model * option Scaler :=
  if model_exists && scaler_exists then
    match load_model with
    | Raise _ => (None, None)
    | Ok m =>
        match load_scaler with
        | Raise _ => (Some m, None)
        | Ok s => (Some m, Some s)
        end
    end
  else (None, None).

(** * The layer around the core: alerts and the two request handlers

    Everything the handlers do to the outside world is an [effect]: the
    events of [analyze_boat_data] and the [print]s (both as [from_core]), the
    call placed through Twilio, and the messages flashed to the page.
    Flask's [request], [jsonify] and [render_template] and Twilio's client
    are external: the request is an argument, the others are parameters of
    the section below.  The texts of the exceptions the interpreter itself
    raises differ between Python versions; no property depends on them. *)

Inductive effect : Type :=
| from_core (ev : event)
| calls_create (account_sid auth_token twiml to_ from_ : string)
| flash (message : string).

(** ** The monad of the handlers: local variables [S], effects, exceptions *)

Definition IO (S A : Type) : Type :=
  S -> list effect -> result A * S * list effect.

Definition io_ret {S A : Type} (a : A) : IO S A :=
  fun s tr => (Ok a, s, tr).

Definition io_bind {S A B : Type} (m : IO S A) (k : A -> IO S B) : IO S B :=
  fun s tr =>
    match m s tr with
    | (Ok a, s', tr') => k a s' tr'
    | (Raise e, s', tr') => (Raise e, s', tr')
    end.

Declare Scope io_scope.
Delimit Scope io_scope with io.
Notation "x <- m ;; k" := (io_bind m (fun x => k))
  (at level 61, m at next level, right associativity) : io_scope.
Notation "m ;; k" := (io_bind m (fun _ => k))
  (at level 61, right associativity) : io_scope.

Definition io_lift {S A : Type} (m : result A) : IO S A :=
  fun s tr => (m, s, tr).

Definition io_emit {S : Type} (ef : effect) : IO S unit :=
  fun s tr => (Ok tt, s, (tr ++ [ef])%list).

Definition io_print {S : Type} (text : string) : IO S unit :=
  io_emit (from_core (print text)).

Definition io_get {S : Type} : IO S S := fun s tr => (Ok s, s, tr).

Definition io_put {S : Type} (s : S) : IO S unit := fun _ tr => (Ok tt, s, tr).

(** [try: body except Exception as e: handler e]: the handler starts from
    the store and the trace the body left. *)
Definition io_try {S A : Type} (body : IO S A) (handler : PyException -> IO S A)
    : IO S A :=
  fun s tr =>
    match body s tr with
    | (Ok a, s', tr') => (Ok a, s', tr')
    | (Raise e, s', tr') => handler e s' tr'
    end.

(** A call to a function that has no access to the caller's locals. *)
Definition io_sub {S A : Type} (m : IO unit A) : IO S A :=
  fun s tr => let '(r, _, tr') := m tt tr in (r, s, tr').

(** ** JSON values and the Python operations the handlers apply to them *)

#[warnings="-register-all"]
Inductive json : Type :=
| JNull
| JBool (b : bool)
| JInt (z : Z)
| JFloat (r : R)
| JString (s : string)
| JArray (xs : list json)
| JObject (items : list (string * json)).

(** A dict is the list of its items, read by the first item of a key. *)
Fixpoint assoc {A : Type} (key : string) (items : list (string * A))
    : option A :=
  match items with
  | [] => None
  | (k, v) :: rest => if String.eqb k key then Some v else assoc key rest
  end.

(** [needle in hay] on two strings. *)
Fixpoint contains_substring (needle hay : string) : bool :=
  prefix needle hay
  || match hay with
     | EmptyString => false
     | String _ rest => contains_substring needle rest
     end.

Definition TypeError (message : string) : PyException :=
  mkException "TypeError" message.

Definition type_name (data : json) : string :=
  match data with
  | JNull => "NoneType"
  | JBool _ => "bool"
  | JInt _ => "int"
  | JFloat _ => "float"
  | JString _ => "str"
  | JArray _ => "list"
  | JObject _ => "dict"
  end.

(** [key in data]. *)
Definition py_contains (key : string) (data : json) : result bool :=
  match data with
  | JObject items =>
      Ok (match assoc key items with Some _ => true | None => false end)
  | JArray xs =>
      Ok (existsb (fun x => match x with
                            | JString s => String.eqb s key
                            | _ => false
                            end) xs)
  | JString s => Ok (contains_substring key s)
  | JNull | JBool _ | JInt _ | JFloat _ =>
      Raise (TypeError ("argument of type '" ++ type_name data
                        ++ "' is not iterable"))
  end.

(** [data[key]] with a string key. *)
Definition py_getitem (data : json) (key : string) : result json :=
  match data with
  | JObject items =>
      match assoc key items with
      | Some v => Ok v
      | None => Raise (mkException "KeyError" ("'" ++ key ++ "'"))
      end
  | JArray _ =>
      Raise (TypeError "list indices must be integers or slices, not str")
  | JString _ => Raise (TypeError "string indices must be integers, not 'str'")
  | JNull | JBool _ | JInt _ | JFloat _ =>
      Raise (TypeError ("'" ++ type_name data
                        ++ "' object is not subscriptable"))
  end.

(** [data.get(key, default)]. *)
Definition py_get (data : json) (key : string) (default : json)
    : result json :=
  match data with
  | JObject items =>
      Ok (match assoc key items with Some v => v | None => default end)
  | _ =>
      Raise (mkException "AttributeError"
               ("'" ++ type_name data ++ "' object has no attribute 'get'"))
  end.

(** [not x] is false exactly for a non-empty string. *)
Definition truthy (x : option string) : bool :=
  match x with
  | Some s => negb (String.eqb s "")
  | None => false
  end.

Definition text_of (x : option string) : string :=
  match x with
  | Some s => s
  | None => "None"
  end.

Definition newline : string := String (Ascii.ascii_of_nat 10) "".
Definition double_quote : string := String (Ascii.ascii_of_nat 34) "".

(** ** Responses *)

(** The dict handed to [jsonify]. *)
Inductive Body : Type :=
| CheckPointBody (inside_safe_zone is_suspicious : bool) (status_code : Z)
    (distance_to_boundary : pyfloat) (message : string)
    (model_prediction : option Z)
| ErrorBody (status message : string).

Record Response : Type := mkResponse {
  response_body : Body;
  response_status : Z
}.

(** The methods that reach [predict_boat_status]: the route lists GET and
    POST, and Flask serves HEAD through the same function. *)
Inductive Method : Type := GET | HEAD | POST.

(** The local variables of [predict_boat_status] that outlive its [try]. *)
Module Page.
Record t : Type := mk {
  prediction_result : option Z;
  zone_message : option string;
  distance : option pyfloat
}.
End Page.

(** The call [render_template('index1.html', ...)] that ends
    [predict_boat_status], by its arguments. *)
Record Rendered : Type := mkRendered {
  template_name : string;
  prediction : option Z;
  rendered_zone_message : option string;
  rendered_distance : option pyfloat;
  geofence_config : GeofenceConfig
}.

Definition required_env_vars : list string :=
  ["TWILIO_ACCOUNT_SID"; "TWILIO_AUTH_TOKEN"; "TWILIO_PHONE_NUMBER";
   "ALERT_RECIPIENT_NUMBER"].

Section Application.

(** [f"{distance:.2f}"], [str] of a float inside an f-string, and [float] of
    a string (a real number or [ValueError]; the strings that denote
    infinities and NaN are outside the model, as these values are). *)
Variable format_2f : pyfloat -> string.
Variable str_float : R -> string.
Variable float_of_str : string -> result R.

(** [os.environ.get]. *)
Variable environ : string -> option string.

(** The module-level globals. *)
Variable config : GeofenceConfig.
Variable model : option Model.
Variable scaler : option Scaler.

(** [Client(account_sid, auth_token).calls.create(twiml=, to=, from_=).sid]:
    the SID of the call placed, or the exception of the client.  Building
    the client and sending the request are one external step, recorded as
    one [calls_create] effect. *)
Variable twilio : string -> string -> string -> string -> string
                  -> result string.

(** The exception [jsonify] raises on a body it cannot encode, if any.  The
    error bodies hold two strings and are always encoded. *)
Variable encoder_error : Body -> option PyException.

Definition jsonify (b : Body) : result Body :=
  match b with
  | ErrorBody _ _ => Ok b
  | CheckPointBody _ _ _ _ _ _ =>
      match encoder_error b with
      | Some e => Raise e
      | None => Ok b
      end
  end.

(** [float(x)].  An integer converts when it rounds to a double, that is
    below [2^1024 - 2^970] in absolute value (half-way between the largest
    double and [2^1024]); from there on [float] raises [OverflowError]. *)
Definition py_float (x : json) : result R :=
  match x with
  | JInt z =>
      if (Z.abs z <? 2 ^ 1024 - 2 ^ 970)%Z then Ok (IZR z)
      else Raise (mkException "OverflowError"
                    "int too large to convert to float")
  | JFloat r => Ok r
  | JBool b => Ok (if b then 1 else 0)
  | JString s => float_of_str s
  | JNull | JArray _ | JObject _ =>
      Raise (TypeError
               ("float() argument must be a string or a real number, not '"
                ++ type_name x ++ "'"))
  end.

Definition TWILIO_ACCOUNT_SID : option string := environ "TWILIO_ACCOUNT_SID".
Definition TWILIO_AUTH_TOKEN : option string := environ "TWILIO_AUTH_TOKEN".
Definition TWILIO_PHONE_NUMBER : option string :=
  environ "TWILIO_PHONE_NUMBER".
Definition ALERT_RECIPIENT_NUMBER : option string :=
  environ "ALERT_RECIPIENT_NUMBER".

(** The start-up check of the environment and the warning it prints. *)
Definition missing_vars : list string :=
  filter (fun var => negb (truthy (environ var))) required_env_vars.

Definition startup_warning : list effect :=
  match missing_vars with
  | [] => []
  | _ :: _ =>
      [from_core
         (print ("Warning: Missing required environment variables: "
                 ++ String.concat ", " missing_vars));
       from_core
         (print "Please check your .env file and ensure all required variables are set.")]
  end.

(** ** [make_twilio_call] *)

Definition twiml_of (message : string) : string :=
  newline
  ++ "        <Response>" ++ newline
  ++ "            <Say>Alert! " ++ message
  ++ " Please check the monitoring system immediately.</Say>" ++ newline
  ++ "            <Pause length=" ++ double_quote ++ "1" ++ double_quote
  ++ "/>" ++ newline
  ++ "            <Say>This is an automated call from the boat border monitoring system.</Say>"
  ++ newline
  ++ "        </Response>" ++ newline
  ++ "        ".

Definition make_twilio_call (message : string) : IO unit bool :=
  if negb (forallb truthy
             [TWILIO_ACCOUNT_SID; TWILIO_AUTH_TOKEN; TWILIO_PHONE_NUMBER;
              ALERT_RECIPIENT_NUMBER])
  then
    (io_print "Twilio credentials not available. Skipping call." ;;
     io_ret false)%io
  else
    io_try
      (let twiml := twiml_of message in
       io_emit (calls_create (text_of TWILIO_ACCOUNT_SID)
                  (text_of TWILIO_AUTH_TOKEN) twiml
                  (text_of ALERT_RECIPIENT_NUMBER)
                  (text_of TWILIO_PHONE_NUMBER)) ;;
       sid <- io_lift (twilio (text_of TWILIO_ACCOUNT_SID)
                         (text_of TWILIO_AUTH_TOKEN) twiml
                         (text_of ALERT_RECIPIENT_NUMBER)
                         (text_of TWILIO_PHONE_NUMBER)) ;;
       io_print ("Alert call initiated. Call SID: " ++ sid) ;;
       io_ret true)%io
      (fun e =>
         (io_print ("Failed to make Twilio call: " ++ exc_message e) ;;
          io_ret false)%io).

(** [analyze_boat_data] called from a handler: its trace joins the
    handler's. *)
Definition io_analyze {S : Type} (latitude longitude speed direction : R)
    : IO S Verdict.t :=
  fun s tr =>
    let '(r, core_trace) :=
      analyze_boat_data format_2f config model scaler
        latitude longitude speed direction in
    (r, s, (tr ++ map from_core core_trace)%list).

(** ** [api_check_point]

    [request_json] is what [request.json] yields: the decoded body, or the
    exception Flask raises on a body that is not JSON.  The [try] block
    either returns a response ([Some]) or falls through ([None]). *)
Definition api_check_point (request_json : result json)
    : IO unit (Body * Z) :=
  (returned <-
     io_try
       (data <- io_lift request_json ;;
        has_latitude <- io_lift (py_contains "latitude" data) ;;
        has_both <-
          (if has_latitude : bool
           then io_lift (py_contains "longitude" data)
           else io_ret false) ;;
        if has_both : bool then
          (lat <- io_lift (x <- py_getitem data "latitude" ;;
                           py_float x)%result ;;
           lng <- io_lift (x <- py_getitem data "longitude" ;;
                           py_float x)%result ;;
           speed <- io_lift (x <- py_get data "speed" (JInt 0) ;;
                             py_float x)%result ;;
           direction <- io_lift (x <- py_get data "direction" (JInt 0) ;;
                                 py_float x)%result ;;
           v <- io_analyze lat lng speed direction ;;
           (if Verdict.is_suspicious v then
              (let alert_message :=
                 "Alert! Boat detected in restricted zone at coordinates: "
                 ++ str_float lat ++ ", " ++ str_float lng ++ "." in
               has_speed <- io_lift (py_contains "speed" data) ;;
               has_motion <-
                 (if has_speed : bool
                  then io_lift (py_contains "direction" data)
                  else io_ret false) ;;
               let alert_message :=
                 if has_motion : bool
                 then alert_message ++ " Speed: " ++ str_float speed
                      ++ ", Direction: " ++ str_float direction ++ "."
                 else alert_message in
               _ <- io_sub (make_twilio_call alert_message) ;;
               io_ret tt)
            else io_ret tt) ;;
           b <- io_lift (jsonify
                           (CheckPointBody
                              (Verdict.zone_status v =? 1)%Z
                              (Verdict.is_suspicious v)
                              (Verdict.zone_status v)
                              (Verdict.distance v)
                              (Verdict.zone_message v)
                              (Verdict.model_prediction v))) ;;
           io_ret (Some (b, 200%Z)))
        else io_ret None)
       (fun e =>
          b <- io_lift (jsonify (ErrorBody "error" (exc_message e))) ;;
          io_ret (Some (b, 400%Z))) ;;
   match returned with
   | Some response => io_ret response
   | None =>
       b <- io_lift (jsonify (ErrorBody "error" "Invalid data")) ;;
       io_ret (b, 400%Z)
   end)%io.

(** ** [predict_boat_status]

    [form] is [request.form]; a missing field raises the [KeyError] that
    werkzeug turns into a bad request. *)
Definition form_field (form : list (string * string)) (name : string)
    : result string :=
  match assoc name form with
  | Some value => Ok value
  | None =>
      Raise (mkException "BadRequestKeyError"
               "400 Bad Request: The browser (or proxy) sent a request that this server could not understand.")
  end.

Definition predict_boat_status (method : Method)
    (form : list (string * string)) : IO Page.t Rendered :=
  (io_put (Page.mk None None None) ;;
   match method with
   | POST =>
       io_try
         (latitude <- io_lift (x <- form_field form "latitude" ;;
                               float_of_str x)%result ;;
          longitude <- io_lift (x <- form_field form "longitude" ;;
                                float_of_str x)%result ;;
          speed <- io_lift (x <- form_field form "speed" ;;
                            float_of_str x)%result ;;
          direction <- io_lift (x <- form_field form "direction" ;;
                                float_of_str x)%result ;;
          v <- io_analyze latitude longitude speed direction ;;
          let zone_message := Verdict.zone_message v in
          io_put (Page.mk None (Some zone_message)
                    (Some (Verdict.distance v))) ;;
          io_put (Page.mk (Some (if Verdict.is_suspicious v then 1 else 0)%Z)
                    (Some zone_message) (Some (Verdict.distance v))) ;;
          if Verdict.is_suspicious v then
            (let alert_message :=
               "Suspicious boat detected at coordinates: "
               ++ str_float latitude ++ ", " ++ str_float longitude
               ++ ". Speed: " ++ str_float speed
               ++ ", Direction: " ++ str_float direction ++ ". "
               ++ zone_message in
             call_status <- io_sub (make_twilio_call alert_message) ;;
             if call_status : bool
             then io_emit (flash (zone_message
                                  ++ " Phone alert has been sent."))
             else io_emit (flash (zone_message
                                  ++ " Failed to send phone alert.")))
          else io_emit (flash zone_message))
         (fun e =>
            let error_msg := "Error processing request: " ++ exc_message e in
            io_print error_msg ;;
            io_emit (flash error_msg))
   | GET | HEAD => io_ret tt
   end ;;
   page <- io_get ;;
   io_ret (mkRendered "index1.html" (Page.prediction_result page)
             (Page.zone_message page) (Page.distance page)
             config))%io.

End Application.

(** * Vocabulary of the properties

    Closed forms of what the functions above compute; each is tied to its
    function by a lemma below ([haversine_eq], [boundary_loop_eq]). *)

(** The quantity [a] of the haversine formula. *)
Definition hav_a (lat1 lon1 lat2 lon2 : R) : R :=
  sin ((math_radians lat2 - math_radians lat1) / 2) ^ 2
  + cos (math_radians lat1) * cos (math_radians lat2)
    * sin ((math_radians lon2 - math_radians lon1) / 2) ^ 2.

(** The distance [haversine] returns. *)
Definition haversine_km (lat1 lon1 lat2 lon2 : R) : R :=
  2 * asin (sqrt (hav_a lat1 lon1 lat2 lon2)) * 6371.

(** The distance from a position to one vertex of the boundary. *)
Definition vertex_km (lat lng : R) (v : Point.t) : R :=
  haversine_km lat lng (Point.lat v) (Point.lng v).

(** One iteration of the loop of [check_boundary_distance]. *)
Definition closer (lat lng : R) (min_distance : pyfloat) (v : Point.t)
    : pyfloat :=
  if flt (Fin (vertex_km lat lng v)) min_distance
  then Fin (vertex_km lat lng v)
  else min_distance.

(** [d] is the least of the distances from [(lat, lng)] to the vertices of
    [line], each computed by [haversine]. *)
Definition is_min_vertex_distance (lat lng : R) (line : list Point.t)
    (d : R) : Prop :=
  (exists v, In v line
     /\ haversine lat lng (Point.lat v) (Point.lng v) = Ok d)
  /\ (forall v, In v line ->
       exists dv, haversine lat lng (Point.lat v) (Point.lng v) = Ok dv
                  /\ d <= dv).

(** The feature vector handed to the scaler. *)
Definition features (latitude longitude speed direction : R) (zone_status : Z)
    : list (list R) :=
  [[latitude; longitude; speed; direction; IZR zone_status; IZR 0]].

(** What one consultation of the classifier yields: the label, or the
    exception raised by [scaler.transform], by [model.predict] or by the
    indexing of its result. *)
Definition classifier_outcome (the_model : Model) (the_scaler : Scaler)
    (X : list (list R)) : result Z :=
  (X' <- the_scaler X ;;
   predictions <- the_model X' ;;
   getitem0 predictions)%result.

(** The label the classifier gives for a row: the outcome of the
    consultation when the model and the scaler are both loaded and nothing
    raises, and no label otherwise. *)
Definition classifier_answer (model : option Model) (scaler : option Scaler)
    (X : list (list R)) : option Z :=
  match model, scaler with
  | Some the_model, Some the_scaler =>
      match classifier_outcome the_model the_scaler X with
      | Ok label => Some label
      | Raise _ => None
      end
  | _, _ => None
  end.

Definition alert_message (format_2f : pyfloat -> string) (d : pyfloat)
    : string :=
  "ALERT: Boat is in restricted zone! " ++ format_2f d ++ " km from boundary".

Definition safe_message (format_2f : pyfloat -> string) (d : pyfloat)
    : string :=
  "Safe: Boat is in safe zone. " ++ format_2f d ++ " km from boundary".

Definition no_classifier_call (tr : list event) : Prop :=
  forall ev, In ev tr -> is_classifier_call ev = false.

(** The same vertices, in any order and any number of times. *)
Definition same_vertices (line1 line2 : list Point.t) : Prop :=
  forall v, In v line1 <-> In v line2.

Definition warning_suffix : string := " WARNING: Behavior appears suspicious!".

Definition is_twilio_call (ef : effect) : bool :=
  match ef with
  | calls_create _ _ _ _ _ => true
  | _ => false
  end.

(** The test [all([...])] of [make_twilio_call]. *)
Definition credentials_complete (environ : string -> option string) : bool :=
  forallb truthy
    [environ "TWILIO_ACCOUNT_SID"; environ "TWILIO_AUTH_TOKEN";
     environ "TWILIO_PHONE_NUMBER"; environ "ALERT_RECIPIENT_NUMBER"].

(** The four conversions of [api_check_point], in its order. *)
Definition observation_of (float_of_str : string -> result R) (data : json)
    : result (R * R * R * R) :=
  (lat <- (x <- py_getitem data "latitude" ;; py_float float_of_str x) ;;
   lng <- (x <- py_getitem data "longitude" ;; py_float float_of_str x) ;;
   speed <- (x <- py_get data "speed" (JInt 0) ;; py_float float_of_str x) ;;
   direction <-
     (x <- py_get data "direction" (JInt 0) ;; py_float float_of_str x) ;;
   Ok (lat, lng, speed, direction))%result.

(** The four conversions of [predict_boat_status], in its order. *)
Definition form_observation (float_of_str : string -> result R)
    (form : list (string * string)) : result (R * R * R * R) :=
  (latitude <- (x <- form_field form "latitude" ;; float_of_str x) ;;
   longitude <- (x <- form_field form "longitude" ;; float_of_str x) ;;
   speed <- (x <- form_field form "speed" ;; float_of_str x) ;;
   direction <- (x <- form_field form "direction" ;; float_of_str x) ;;
   Ok (latitude, longitude, speed, direction))%result.

(** What [make_twilio_call] returns and the effects it adds, in closed
    form. *)
Definition alert_outcome (environ : string -> option string)
    (twilio : string -> string -> string -> string -> string -> result string)
    (message : string) : bool * list effect :=
  let account_sid := text_of (environ "TWILIO_ACCOUNT_SID") in
  let auth_token := text_of (environ "TWILIO_AUTH_TOKEN") in
  let to_ := text_of (environ "ALERT_RECIPIENT_NUMBER") in
  let from_ := text_of (environ "TWILIO_PHONE_NUMBER") in
  if credentials_complete environ then
    match twilio account_sid auth_token (twiml_of message) to_ from_ with
    | Ok sid =>
        (true,
         [calls_create account_sid auth_token (twiml_of message) to_ from_;
          from_core (print ("Alert call initiated. Call SID: " ++ sid))])
    | Raise e =>
        (false,
         [calls_create account_sid auth_token (twiml_of message) to_ from_;
          from_core (print ("Failed to make Twilio call: "
                            ++ exc_message e))])
    end
  else
    (false,
     [from_core (print "Twilio credentials not available. Skipping call.")]).

(** The text [api_check_point] hands to [make_twilio_call]. *)
Definition api_alert_message (str_float : R -> string) (data : json)
    (lat lng speed direction : R) : string :=
  let base :=
    "Alert! Boat detected in restricted zone at coordinates: "
    ++ str_float lat ++ ", " ++ str_float lng ++ "." in
  match py_contains "speed" data, py_contains "direction" data with
  | Ok true, Ok true =>
      base ++ " Speed: " ++ str_float speed
      ++ ", Direction: " ++ str_float direction ++ "."
  | _, _ => base
  end.

(** The text [predict_boat_status] hands to [make_twilio_call]. *)
Definition page_alert_message (str_float : R -> string)
    (latitude longitude speed direction : R) (zone_message : string)
    : string :=
  "Suspicious boat detected at coordinates: "
  ++ str_float latitude ++ ", " ++ str_float longitude
  ++ ". Speed: " ++ str_float speed
  ++ ", Direction: " ++ str_float direction ++ ". " ++ zone_message.

(** The body [api_check_point] builds from a verdict. *)
Definition api_body (v : Verdict.t) : Body :=
  CheckPointBody (Verdict.zone_status v =? 1)%Z (Verdict.is_suspicious v)
    (Verdict.zone_status v) (Verdict.distance v) (Verdict.zone_message v)
    (Verdict.model_prediction v).

Definition twilio_calls (tr : list effect) : list effect :=
  filter is_twilio_call tr.

Definition is_flash (ef : effect) : bool :=
  match ef with
  | flash _ => true
  | _ => false
  end.

(** * Properties *)

(** ** The comparisons *)

Lemma Rltb_true_iff (x y : R) : Rltb x y = true <-> x < y.
Proof.
  unfold Rltb. destruct (Rlt_dec x y); split; intros; auto; discriminate.
Qed.

Lemma Rleb_true_iff (x y : R) : Rleb x y = true <-> x <= y.
Proof.
  unfold Rleb. destruct (Rle_dec x y); split; intros; auto; discriminate.
Qed.

Lemma flt_true_iff (x y : pyfloat) : flt x y = true <-> pf_lt x y.
Proof.
  destruct x, y; simpl; try apply Rltb_true_iff; split; auto; discriminate.
Qed.

Lemma fle_true_iff (x y : pyfloat) : fle x y = true <-> pf_le x y.
Proof.
  destruct x, y; simpl; try apply Rleb_true_iff; split; auto; discriminate.
Qed.

(** The two orders are complementary: there is no unordered float here. *)
Lemma pf_lt_not_le (x y : pyfloat) : pf_lt x y <-> ~ pf_le y x.
Proof.
  destruct x, y; simpl; try tauto. split; lra.
Qed.

Lemma fle_false_iff (x y : pyfloat) : fle x y = false <-> pf_lt y x.
Proof.
  rewrite pf_lt_not_le, <- fle_true_iff. destruct (fle x y); split; congruence.
Qed.

Lemma pf_le_refl (x : pyfloat) : pf_le x x.
Proof. destruct x; simpl; auto; lra. Qed.

Lemma pf_le_trans (x y z : pyfloat) : pf_le x y -> pf_le y z -> pf_le x z.
Proof. destruct x, y, z; simpl; try tauto; lra. Qed.

(** ** The distance calculator *)

Lemma sin_half_sqr (x : R) : sin (x / 2) ^ 2 = (1 - cos x) / 2.
Proof.
  replace (cos x) with (cos (2 * (x / 2))) by (f_equal; lra).
  rewrite cos_2a_sin. lra.
Qed.

(** [a] is the haversine of an angle, so it lies in [[0, 1]]: neither
    [math.sqrt] nor [math.asin] can raise. *)
Lemma hav_a_range (lat1 lon1 lat2 lon2 : R) :
  0 <= hav_a lat1 lon1 lat2 lon2 <= 1.
Proof.
  unfold hav_a.
  set (x := math_radians lat1). set (y := math_radians lat2).
  set (l := math_radians lon2 - math_radians lon1).
  rewrite !sin_half_sqr.
  pose proof (COS_bound l) as Hl.
  pose proof (COS_bound (y - x)) as Hm.
  pose proof (COS_bound (y + x)) as Hp.
  rewrite cos_minus in Hm |- *. rewrite cos_plus in Hp.
  set (u := (1 - cos l) / 2) in *.
  assert (Hu : 0 <= u <= 1) by (unfold u; lra).
  set (P := cos x * cos y). replace (cos y * cos x) with P in * by (unfold P; ring).
  set (Q := sin y * sin x) in *.
  split; nra.
Qed.

Lemma asin_nonneg (s : R) : 0 <= s <= 1 -> 0 <= asin s.
Proof.
  intros Hs. destruct (Rle_lt_dec 0 (asin s)) as [H | H]; [exact H |].
  pose proof (asin_bound s) as Hb. pose proof PI_RGT_0 as Hpi.
  assert (Hneg : sin (asin s) < 0) by (apply sin_lt_0_var; lra).
  rewrite sin_asin in Hneg by lra. lra.
Qed.

Lemma haversine_eq (lat1 lon1 lat2 lon2 : R) :
  haversine lat1 lon1 lat2 lon2 = Ok (haversine_km lat1 lon1 lat2 lon2).
Proof.
  unfold haversine, haversine_km. fold (hav_a lat1 lon1 lat2 lon2).
  destruct (hav_a_range lat1 lon1 lat2 lon2) as [H0 H1].
  unfold math_sqrt. destruct (Rlt_dec _ 0) as [Hn | _]; [lra |].
  simpl. unfold math_asin.
  pose proof (sqrt_pos (hav_a lat1 lon1 lat2 lon2)) as Hs0.
  assert (Hs1 : sqrt (hav_a lat1 lon1 lat2 lon2) <= 1).
  { rewrite <- sqrt_1. apply sqrt_le_1_alt. exact H1. }
  destruct (Rlt_dec _ (-1)) as [Hn | _]; [lra |].
  destruct (Rlt_dec 1 _) as [Hn | _]; [lra |].
  reflexivity.
Qed.

Lemma haversine_km_nonneg (lat1 lon1 lat2 lon2 : R) :
  0 <= haversine_km lat1 lon1 lat2 lon2.
Proof.
  unfold haversine_km.
  destruct (hav_a_range lat1 lon1 lat2 lon2) as [H0 H1].
  assert (0 <= asin (sqrt (hav_a lat1 lon1 lat2 lon2))).
  { apply asin_nonneg. split; [apply sqrt_pos |].
    rewrite <- sqrt_1. apply sqrt_le_1_alt. exact H1. }
  lra.
Qed.

Lemma hav_a_sym (lat1 lon1 lat2 lon2 : R) :
  hav_a lat1 lon1 lat2 lon2 = hav_a lat2 lon2 lat1 lon1.
Proof.
  unfold hav_a. rewrite !sin_half_sqr.
  replace (math_radians lat1 - math_radians lat2)
    with (- (math_radians lat2 - math_radians lat1)) by ring.
  replace (math_radians lon1 - math_radians lon2)
    with (- (math_radians lon2 - math_radians lon1)) by ring.
  rewrite !cos_neg. ring.
Qed.

Lemma hav_a_same (lat lon : R) : hav_a lat lon lat lon = 0.
Proof.
  unfold hav_a. rewrite !Rminus_diag. replace (0 / 2) with 0 by lra.
  rewrite sin_0. ring.
Qed.

Lemma haversine_km_same (lat lon : R) : haversine_km lat lon lat lon = 0.
Proof.
  unfold haversine_km. rewrite hav_a_same, sqrt_0, asin_0. ring.
Qed.

(** ** Numeric bounds on distances *)

Lemma PI_bounds : 3.14 < PI < 3.15.
Proof.
  pose proof (PI_2_3_7_ineq 1) as H.
  unfold sum_f_R0, tg_alt, PI_2_3_7_tg, Ratan_seq in H. simpl in H.
  lra.
Qed.

Lemma sin_lower (x : R) : 0 <= x <= PI -> x - x ^ 3 / 6 <= sin x.
Proof.
  intros [H0 H1]. pose proof (sin_bound x 0 H0 H1) as [H _].
  unfold sin_approx, sin_term in H. simpl in H. lra.
Qed.

Lemma sin_upper (x : R) : 0 <= x -> sin x <= x.
Proof.
  intros [H | <-]; [left; apply sin_lt_x; exact H | rewrite sin_0; lra].
Qed.

Lemma cos_lower (x : R) : - PI / 2 <= x <= PI / 2 -> 1 - x ^ 2 / 2 <= cos x.
Proof.
  intros [H0 H1]. pose proof (cos_bound x 0 H0 H1) as [H _].
  unfold cos_approx, cos_term in H. simpl in H. lra.
Qed.

Lemma sin_sqr_Rabs (x : R) : sin x ^ 2 = sin (Rabs x) ^ 2.
Proof.
  unfold Rabs. destruct (Rcase_abs x); [rewrite sin_neg; ring | reflexivity].
Qed.

Lemma asin_ge_self (y : R) : 0 <= y <= 1 -> y <= asin y.
Proof.
  intros Hy. pose proof (asin_nonneg y Hy) as H0.
  pose proof (asin_bound y) as Hb. pose proof PI_RGT_0.
  rewrite <- (sin_asin y) at 1 by lra.
  apply sin_upper. lra.
Qed.

Lemma sqrt_hav_a_range lat1 lon1 lat2 lon2 :
  0 <= sqrt (hav_a lat1 lon1 lat2 lon2) <= 1.
Proof.
  split; [apply sqrt_pos |].
  rewrite <- sqrt_1. apply sqrt_le_1_alt. apply hav_a_range.
Qed.

(** A lower bound on [a] is a lower bound on the distance. *)
Lemma haversine_km_lower lat1 lon1 lat2 lon2 (L : R) :
  0 <= L -> L ^ 2 <= hav_a lat1 lon1 lat2 lon2 ->
  2 * 6371 * L <= haversine_km lat1 lon1 lat2 lon2.
Proof.
  intros HL Ha. unfold haversine_km.
  pose proof (sqrt_hav_a_range lat1 lon1 lat2 lon2) as Hs.
  pose proof (asin_ge_self _ Hs) as Hge.
  assert (L <= sqrt (hav_a lat1 lon1 lat2 lon2)).
  { rewrite <- (sqrt_pow2 L HL). apply sqrt_le_1_alt. exact Ha. }
  lra.
Qed.

Lemma haversine_km_upper lat1 lon1 lat2 lon2 (T : R) :
  0 <= T <= PI / 2 -> hav_a lat1 lon1 lat2 lon2 <= sin T ^ 2 ->
  haversine_km lat1 lon1 lat2 lon2 <= 2 * 6371 * T.
Proof.
  intros HT Ha. unfold haversine_km.
  pose proof (sqrt_hav_a_range lat1 lon1 lat2 lon2) as Hs.
  pose proof (asin_bound (sqrt (hav_a lat1 lon1 lat2 lon2))) as Hb.
  assert (Hsin : 0 <= sin T) by (apply sin_ge_0; pose proof PI_RGT_0; lra).
  assert (Hle : sqrt (hav_a lat1 lon1 lat2 lon2) <= sin T).
  { rewrite <- (sqrt_pow2 (sin T) Hsin). apply sqrt_le_1_alt. exact Ha. }
  assert (asin (sqrt (hav_a lat1 lon1 lat2 lon2)) <= T).
  { apply sin_incr_0; try lra. rewrite sin_asin by lra. exact Hle. }
  lra.
Qed.

Lemma haversine_km_lat_lower lat1 lon1 lat2 lon2 :
  -90 <= lat1 <= 90 -> -90 <= lat2 <= 90 -> Rabs (lat2 - lat1) <= 90 ->
  92 * Rabs (lat2 - lat1) <= haversine_km lat1 lon1 lat2 lon2.
Proof.
  intros H1 H2 Hd. pose proof PI_bounds as Hpi.
  pose proof (Rabs_pos (lat2 - lat1)) as Hpos.
  set (D := Rabs (lat2 - lat1)) in *.
  assert (Hc1 : 0 <= cos (math_radians lat1)).
  { apply cos_ge_0; unfold math_radians; nra. }
  assert (Hc2 : 0 <= cos (math_radians lat2)).
  { apply cos_ge_0; unfold math_radians; nra. }
  set (x := (math_radians lat2 - math_radians lat1) / 2).
  assert (Hx : Rabs x = D * (PI / 360)).
  { unfold x, math_radians, D.
    replace ((lat2 * (PI / 180) - lat1 * (PI / 180)) / 2)
      with ((lat2 - lat1) * (PI / 360)) by field.
    rewrite Rabs_mult. rewrite (Rabs_pos_eq (PI / 360)) by lra. reflexivity. }
  assert (Hs : Rabs x - Rabs x ^ 3 / 6 <= sin (Rabs x)).
  { apply sin_lower. rewrite Hx. nra. }
  assert (Hs' : 5 / 6 * Rabs x <= sin (Rabs x)).
  { assert (Hy : 0 <= Rabs x <= 1) by (rewrite Hx; nra).
    assert (Hyy : Rabs x * Rabs x <= 1) by nra.
    assert (Rabs x ^ 3 <= Rabs x).
    { replace (Rabs x ^ 3) with (Rabs x * (Rabs x * Rabs x)) by ring. nra. }
    lra. }
  replace (92 * D) with (2 * 6371 * (92 * D / (2 * 6371))) by field.
  apply haversine_km_lower; [lra |].
  unfold hav_a. fold x. rewrite (sin_sqr_Rabs x).
  assert (0 <= cos (math_radians lat1) * cos (math_radians lat2)
               * sin ((math_radians lon2 - math_radians lon1) / 2) ^ 2).
  { apply Rmult_le_pos; [apply Rmult_le_pos; assumption | apply pow2_ge_0]. }
  assert (Hlow : 92 * D / (2 * 6371) <= sin (Rabs x)).
  { assert (92 * D / (2 * 6371) <= 5 / 6 * (D * (PI / 360))) by nra.
    rewrite <- Hx in *. lra. }
  assert (Hlow0 : 0 <= 92 * D / (2 * 6371)) by lra.
  pose proof (pow_incr _ _ 2 (conj Hlow0 Hlow)).
  lra.
Qed.

Lemma hav_a_center_nearest :
  hav_a 9.0 79.8 8.9 79.7
  = sin (PI / 3600) ^ 2
    * (1 + cos (math_radians 9.0) * cos (math_radians 8.9)).
Proof.
  unfold hav_a.
  replace ((math_radians 8.9 - math_radians 9.0) / 2) with (- (PI / 3600))
    by (unfold math_radians; lra).
  replace ((math_radians 79.7 - math_radians 79.8) / 2) with (- (PI / 3600))
    by (unfold math_radians; lra).
  rewrite sin_neg. ring.
Qed.

Lemma center_nearest_lower : 15 <= haversine_km 9.0 79.8 8.9 79.7.
Proof.
  pose proof PI_bounds as Hpi.
  replace 15 with (2 * 6371 * (15 / 12742)) by field.
  apply haversine_km_lower; [lra |].
  rewrite hav_a_center_nearest.
  assert (He : 0.000872 <= PI / 3600 <= 0.000875) by lra.
  assert (Hs : 0.00087 <= sin (PI / 3600)).
  { pose proof (sin_lower (PI / 3600)) as H.
    assert (Hc : (PI / 3600) ^ 3 <= 0.000001).
    { replace ((PI / 3600) ^ 3) with (PI / 3600 * (PI / 3600 * (PI / 3600)))
        by ring. nra. }
    lra. }
  assert (Hc1 : 0.98 <= cos (math_radians 9.0) <= 1).
  { split; [| apply COS_bound].
    pose proof (cos_lower (math_radians 9.0)) as H. unfold math_radians in *.
    nra. }
  assert (Hc2 : 0.98 <= cos (math_radians 8.9) <= 1).
  { split; [| apply COS_bound].
    pose proof (cos_lower (math_radians 8.9)) as H. unfold math_radians in *.
    nra. }
  assert (Hss : 0.00087 ^ 2 <= sin (PI / 3600) ^ 2).
  { apply pow_incr. lra. }
  assert (Hcc : 0.96 <= cos (math_radians 9.0) * cos (math_radians 8.9)) by nra.
  nra.
Qed.

Lemma center_nearest_upper : haversine_km 9.0 79.8 8.9 79.7 <= 16.
Proof.
  pose proof PI_bounds as Hpi.
  replace 16 with (2 * 6371 * (8 / 6371)) by field.
  apply haversine_km_upper; [lra |].
  rewrite hav_a_center_nearest.
  assert (He : 0 <= PI / 3600 <= 0.000875) by lra.
  assert (Hs : 0 <= sin (PI / 3600) <= 0.000875).
  { split; [apply sin_ge_0; lra |].
    apply Rle_trans with (PI / 3600); [apply sin_upper |]; lra. }
  assert (Hss : sin (PI / 3600) ^ 2 <= 0.000875 ^ 2).
  { apply pow_incr. lra. }
  assert (Hcc : cos (math_radians 9.0) * cos (math_radians 8.9) <= 1).
  { pose proof (COS_bound (math_radians 9.0)).
    pose proof (COS_bound (math_radians 8.9)). nra. }
  assert (HT : 0.00125 <= sin (8 / 6371)).
  { pose proof (sin_lower (8 / 6371)) as H.
    assert (Hc : (8 / 6371) ^ 3 <= 0.000001) by lra.
    lra. }
  assert (HTT : 0.00125 ^ 2 <= sin (8 / 6371) ^ 2).
  { apply pow_incr. lra. }
  nra.
Qed.

(** ** The boundary evaluator *)

Lemma boundary_loop_eq (lat lng : R) (pts : list Point.t) :
  forall acc,
    boundary_loop lat lng pts acc = Ok (fold_left (closer lat lng) pts acc).
Proof.
  induction pts as [| v pts IH]; intros acc; simpl; [reflexivity |].
  rewrite haversine_eq. simpl. apply IH.
Qed.

Lemma closer_le_acc (lat lng : R) (acc : pyfloat) (v : Point.t) :
  pf_le (closer lat lng acc v) acc.
Proof.
  unfold closer. destruct (flt _ acc) eqn:E; [| apply pf_le_refl].
  apply flt_true_iff in E. destruct acc; simpl in *; auto; lra.
Qed.

Lemma closer_le_vertex (lat lng : R) (acc : pyfloat) (v : Point.t) :
  pf_le (closer lat lng acc v) (Fin (vertex_km lat lng v)).
Proof.
  unfold closer. destruct (flt _ acc) eqn:E; [apply pf_le_refl |].
  apply fle_true_iff. destruct (fle acc (Fin (vertex_km lat lng v))) eqn:F;
    [reflexivity |].
  apply fle_false_iff, flt_true_iff in F. congruence.
Qed.

Lemma fold_closer_le_acc (lat lng : R) (pts : list Point.t) :
  forall acc, pf_le (fold_left (closer lat lng) pts acc) acc.
Proof.
  induction pts as [| v pts IH]; intros acc; simpl; [apply pf_le_refl |].
  eapply pf_le_trans; [apply IH | apply closer_le_acc].
Qed.

Lemma fold_closer_le_vertex (lat lng : R) (pts : list Point.t) :
  forall acc v, In v pts ->
    pf_le (fold_left (closer lat lng) pts acc) (Fin (vertex_km lat lng v)).
Proof.
  induction pts as [| w pts IH]; intros acc v Hin; simpl in *; [tauto |].
  destruct Hin as [-> | Hin]; [| apply IH; exact Hin].
  eapply pf_le_trans; [apply fold_closer_le_acc | apply closer_le_vertex].
Qed.

Lemma fold_closer_attained (lat lng : R) (pts : list Point.t) :
  forall acc,
    fold_left (closer lat lng) pts acc = acc
    \/ exists v, In v pts
         /\ fold_left (closer lat lng) pts acc = Fin (vertex_km lat lng v).
Proof.
  induction pts as [| w pts IH]; intros acc; simpl; [left; reflexivity |].
  destruct (IH (closer lat lng acc w)) as [-> | (v & Hin & ->)].
  - unfold closer. destruct (flt _ acc); [right; exists w | left]; auto.
  - right. exists v. auto.
Qed.

(** On a non-empty line the loop ends on a finite distance, the least one. *)
Lemma fold_closer_nonempty (lat lng : R) (pts : list Point.t) :
  pts <> [] ->
  exists d, fold_left (closer lat lng) pts Inf = Fin d
            /\ (exists v, In v pts /\ d = vertex_km lat lng v)
            /\ (forall v, In v pts -> d <= vertex_km lat lng v).
Proof.
  intros Hne.
  destruct (fold_closer_attained lat lng pts Inf) as [E | (v & Hin & E)].
  - destruct pts as [| w pts]; [congruence |].
    pose proof (fold_closer_le_vertex lat lng (w :: pts) Inf w (or_introl eq_refl))
      as H.
    rewrite E in H. destruct H.
  - exists (vertex_km lat lng v). split; [exact E |]. split; [eauto |].
    intros w Hw. pose proof (fold_closer_le_vertex lat lng pts Inf w Hw) as H.
    rewrite E in H. exact H.
Qed.

Lemma check_boundary_distance_eq (lat lng : R) (pts : list Point.t) :
  check_boundary_distance lat lng pts
  = Ok (fold_left (closer lat lng) pts Inf).
Proof. apply boundary_loop_eq. Qed.

Lemma check_geofence_status_eq (config : GeofenceConfig) (lat lng : R) :
  let d := fold_left (closer lat lng) (boundary_line config) Inf in
  check_geofence_status config lat lng
  = Ok (if fle d (Fin (safe_distance_km config)) then 0%Z else 1%Z, d).
Proof.
  unfold check_geofence_status. rewrite check_boundary_distance_eq. simpl.
  destruct (fle _ _); reflexivity.
Qed.

(** [check_geofence_status] always returns, and only the two codes. *)
Lemma check_geofence_status_total (config : GeofenceConfig) (lat lng : R) :
  exists z d, check_geofence_status config lat lng = Ok (z, d)
              /\ (z = ALERT \/ z = SAFE).
Proof.
  rewrite check_geofence_status_eq. destruct (fle _ _); eauto.
Qed.

(** ** The decision engine, branch by branch *)

Section DecisionEngineFacts.

Variable format_2f : pyfloat -> string.
Variable config : GeofenceConfig.
Variables latitude longitude speed direction : R.

Ltac run_analysis H :=
  unfold analyze_boat_data, analyze_boat_data_body, secondary_verification,
    try_except, call, bind, lift, emit, get, ret, set_is_suspicious,
    set_model_prediction, set_zone_message, empty_store;
  rewrite H; simpl.

(** The alert branch. *)
Lemma analyze_alert (model : option Model) (scaler : option Scaler)
    (d : pyfloat) :
  check_geofence_status config latitude longitude = Ok (0%Z, d) ->
  analyze_boat_data format_2f config model scaler
    latitude longitude speed direction
  = (Ok (Verdict.mk true 0 (alert_message format_2f d) d None), []).
Proof. intros H. run_analysis H. reflexivity. Qed.

(** The safe branch when the guard [model is not None and scaler is not None]
    fails. *)
Lemma analyze_safe_unloaded (model : option Model) (scaler : option Scaler)
    (d : pyfloat) :
  check_geofence_status config latitude longitude = Ok (1%Z, d) ->
  model = None \/ scaler = None ->
  analyze_boat_data format_2f config model scaler
    latitude longitude speed direction
  = (Ok (Verdict.mk false 1 (safe_message format_2f d) d None), []).
Proof.
  intros H Hnone. run_analysis H.
  destruct model, scaler; destruct Hnone; try discriminate; reflexivity.
Qed.

(** The safe branch when both are loaded, step by step. *)
Lemma analyze_safe_loaded (the_model : Model) (the_scaler : Scaler)
    (d : pyfloat) :
  check_geofence_status config latitude longitude = Ok (1%Z, d) ->
  let X := features latitude longitude speed direction 1 in
  let unflagged := Verdict.mk false 1 (safe_message format_2f d) d None in
  analyze_boat_data format_2f config (Some the_model) (Some the_scaler)
    latitude longitude speed direction
  = match the_scaler X with
    | Raise e =>
        (Ok unflagged,
         [scaler_transform X; print ("Error using model: " ++ exc_message e)])
    | Ok X' =>
        match the_model X' with
        | Raise e =>
            (Ok unflagged,
             [scaler_transform X; model_predict X';
              print ("Error using model: " ++ exc_message e)])
        | Ok [] =>
            (Ok unflagged,
             [scaler_transform X; model_predict X';
              print ("Error using model: "
                     ++ "index 0 is out of bounds for axis 0 with size 0")])
        | Ok (p :: _) =>
            (Ok (Verdict.mk (p =? 1)%Z 1
                   (if (p =? 1)%Z
                    then safe_message format_2f d
                         ++ " WARNING: Behavior appears suspicious!"
                    else safe_message format_2f d)
                   d (Some p)),
             [scaler_transform X; model_predict X'])
        end
    end.
Proof.
  intros H X unflagged. subst X unflagged. unfold features.
  run_analysis H.
  destruct (the_scaler _) as [X' | e]; simpl; [| reflexivity].
  destruct (the_model X') as [[| p ps] | e]; simpl; try reflexivity.
  destruct (p =? 1)%Z; reflexivity.
Qed.

(** A failed consultation leaves the defaults in place. *)
Lemma analyze_safe_failure (the_model : Model) (the_scaler : Scaler)
    (d : pyfloat) (e : PyException) :
  check_geofence_status config latitude longitude = Ok (1%Z, d) ->
  classifier_outcome the_model the_scaler
    (features latitude longitude speed direction 1) = Raise e ->
  fst (analyze_boat_data format_2f config (Some the_model) (Some the_scaler)
         latitude longitude speed direction)
  = Ok (Verdict.mk false 1 (safe_message format_2f d) d None).
Proof.
  intros H Hout. rewrite (analyze_safe_loaded _ _ _ H).
  unfold classifier_outcome in Hout.
  destruct (the_scaler _) as [X' | e1]; simpl in *; [| reflexivity].
  destruct (the_model X') as [[| p ps] | e2]; simpl in *;
    try reflexivity; discriminate.
Qed.

(** A successful consultation decides the flag. *)
Lemma analyze_safe_label (the_model : Model) (the_scaler : Scaler)
    (d : pyfloat) (p : Z) :
  check_geofence_status config latitude longitude = Ok (1%Z, d) ->
  classifier_outcome the_model the_scaler
    (features latitude longitude speed direction 1) = Ok p ->
  fst (analyze_boat_data format_2f config (Some the_model) (Some the_scaler)
         latitude longitude speed direction)
  = Ok (Verdict.mk (p =? 1)%Z 1
          (if (p =? 1)%Z
           then safe_message format_2f d
                ++ " WARNING: Behavior appears suspicious!"
           else safe_message format_2f d)
          d (Some p)).
Proof.
  intros H Hout. rewrite (analyze_safe_loaded _ _ _ H).
  unfold classifier_outcome in Hout.
  destruct (the_scaler _) as [X' | e1]; simpl in *; [| discriminate].
  destruct (the_model X') as [[| q ps] | e2]; simpl in *; try discriminate.
  injection Hout as ->. reflexivity.
Qed.

(** Whatever the classifier does, the safe branch returns a verdict that is
    flagged exactly when the recorded prediction is 1. *)
Lemma analyze_safe_verdict (model : option Model) (scaler : option Scaler)
    (d : pyfloat) :
  check_geofence_status config latitude longitude = Ok (1%Z, d) ->
  exists v,
    fst (analyze_boat_data format_2f config model scaler
           latitude longitude speed direction) = Ok v
    /\ Verdict.zone_status v = 1%Z
    /\ Verdict.distance v = d
    /\ (Verdict.is_suspicious v = true
        <-> Verdict.model_prediction v = Some 1%Z).
Proof.
  intros H.
  destruct model as [m |], scaler as [s |];
    try (rewrite (analyze_safe_unloaded _ _ _ H) by auto; simpl;
         eexists; repeat split; simpl; discriminate).
  destruct (classifier_outcome m s
              (features latitude longitude speed direction 1)) as [p | e] eqn:E.
  - rewrite (analyze_safe_label _ _ _ _ H E). eexists. repeat split; simpl.
    + intros Hp. apply Z.eqb_eq in Hp. congruence.
    + intros Hp. injection Hp as ->. reflexivity.
  - rewrite (analyze_safe_failure _ _ _ _ H E). eexists.
    repeat split; simpl; discriminate.
Qed.

End DecisionEngineFacts.

(** ** The configured boundary *)

Lemma vertex_km_nonneg (lat lng : R) (v : Point.t) : 0 <= vertex_km lat lng v.
Proof. apply haversine_km_nonneg. Qed.

(** Every degree of latitude between a position and a vertex puts them at
    least 92 km apart. *)
Lemma far_vertex (lat lng vlat vlng gap : R) :
  -90 <= lat <= 90 -> -90 <= vlat <= 90 -> 0 <= gap ->
  gap <= vlat - lat <= 90 \/ gap <= lat - vlat <= 90 ->
  92 * gap <= vertex_km lat lng (Point.mk vlat vlng).
Proof.
  intros Hl Hv Hg Hgap. unfold vertex_km; simpl.
  pose proof (haversine_km_lat_lower lat lng vlat vlng Hl Hv) as H.
  destruct Hgap as [Hgap | Hgap].
  - rewrite Rabs_pos_eq in H by lra. lra.
  - rewrite Rabs_left1 in H by lra. lra.
Qed.

(** The configured centre of the map lies between 15 and 16 km from the
    nearest vertex of the boundary line, [(8.9, 79.7)]: beyond the 12 km
    margin. *)
Lemma center_is_safe :
  exists d,
    check_geofence_status GEOFENCE_CONFIG 9.0 79.8 = Ok (SAFE, Fin d)
    /\ 15 <= d <= 16.
Proof.
  rewrite check_geofence_status_eq.
  destruct (fold_closer_nonempty 9.0 79.8 (boundary_line GEOFENCE_CONFIG))
    as (d & E & (v & Hin & Hd) & Hmin); [discriminate |].
  cbv zeta. rewrite E. exists d.
  assert (Hlo : 15 <= d).
  { subst d. simpl in Hin.
    destruct Hin as [<- | [<- | [<- | [<- | [<- | []]]]]];
      try (apply Rle_trans with (92 * 0.2); [lra | apply far_vertex; lra]).
    unfold vertex_km; simpl.
    replace 8.9000 with 8.9 by lra. replace 79.7000 with 79.7 by lra.
    apply center_nearest_lower. }
  assert (Hhi : d <= 16).
  { apply Rle_trans with (vertex_km 9.0 79.8 (Point.mk 8.9000 79.7000)).
    - apply Hmin. simpl. tauto.
    - unfold vertex_km; simpl.
      replace 8.9000 with 8.9 by lra. replace 79.7000 with 79.7 by lra.
      apply center_nearest_upper. }
  split; [| lra].
  simpl. unfold Rleb. destruct (Rle_dec d 12); [lra | reflexivity].
Qed.

(** A boat on a vertex of the boundary line is in the alert zone, at
    distance 0. *)
Lemma vertex_is_alert :
  check_geofence_status GEOFENCE_CONFIG 9.22 79.8 = Ok (ALERT, Fin 0).
Proof.
  rewrite check_geofence_status_eq.
  destruct (fold_closer_nonempty 9.22 79.8 (boundary_line GEOFENCE_CONFIG))
    as (d & E & (v & Hin & Hd) & Hmin); [discriminate |].
  cbv zeta. rewrite E.
  assert (Hd0 : d = 0).
  { apply Rle_antisym; [| subst d; apply vertex_km_nonneg].
    apply Rle_trans with (vertex_km 9.22 79.8 (Point.mk 9.2200 79.8000)).
    - apply Hmin. simpl. tauto.
    - unfold vertex_km; simpl.
      replace 9.2200 with 9.22 by lra. replace 79.8000 with 79.8 by lra.
      rewrite haversine_km_same. lra. }
  subst d. rewrite Hd0.
  simpl. unfold Rleb. destruct (Rle_dec 0 12); [reflexivity | lra].
Qed.

(** ** Two runs of the decision engine *)

(** Chennai, three degrees north of the boundary line, is in the safe zone,
    more than 100 km away. *)
Example chennai_is_safe :
  exists d,
    check_geofence_status GEOFENCE_CONFIG 13.0827 80.2707 = Ok (SAFE, Fin d)
    /\ 100 <= d.
Proof.
  rewrite check_geofence_status_eq.
  destruct (fold_closer_nonempty 13.0827 80.2707
              (boundary_line GEOFENCE_CONFIG))
    as (d & E & (v & Hin & Hd) & _); [discriminate |].
  cbv zeta. rewrite E. exists d.
  assert (Hlo : 100 <= d).
  { subst d. simpl in Hin.
    destruct Hin as [<- | [<- | [<- | [<- | [<- | []]]]]];
      (apply Rle_trans with (92 * 3); [lra | apply far_vertex; lra]). }
  split; [| exact Hlo].
  simpl. unfold Rleb. destruct (Rle_dec d 12); [lra | reflexivity].
Qed.

(** At the configured centre, a loaded classifier that predicts 1 is
    consulted once and turns the safe verdict into a suspicious one. *)
Example center_flagged_by_classifier :
  exists d,
    analyze_boat_data (fun _ => "15.63") GEOFENCE_CONFIG
      (Some (fun _ => Ok [1%Z])) (Some (fun X => Ok X)) 9.0 79.8 10 45
    = (Ok (Verdict.mk true SAFE
             "Safe: Boat is in safe zone. 15.63 km from boundary WARNING: Behavior appears suspicious!"
             (Fin d) (Some 1%Z)),
       [scaler_transform (features 9.0 79.8 10 45 SAFE);
        model_predict (features 9.0 79.8 10 45 SAFE)]).
Proof.
  destruct center_is_safe as (d & H & _). exists d. unfold SAFE in *.
  rewrite (analyze_safe_loaded _ _ _ _ _ _ _ _ _ H). reflexivity.
Qed.

(** * Properties of the specification *)

(** In the safe zone the verdict records the classifier's answer and is
    flagged exactly when that answer is 1. *)
Lemma analyze_safe_answer (format_2f : pyfloat -> string)
    (config : GeofenceConfig) (model : option Model) (scaler : option Scaler)
    (latitude longitude speed direction : R) (d : pyfloat) :
  check_geofence_status config latitude longitude = Ok (1%Z, d) ->
  exists v,
    fst (analyze_boat_data format_2f config model scaler
           latitude longitude speed direction) = Ok v
    /\ Verdict.zone_status v = 1%Z
    /\ Verdict.distance v = d
    /\ Verdict.model_prediction v
       = classifier_answer model scaler
           (features latitude longitude speed direction 1)
    /\ (Verdict.is_suspicious v = true
        <-> classifier_answer model scaler
              (features latitude longitude speed direction 1) = Some 1%Z).
Proof.
  intros H. unfold classifier_answer.
  destruct model as [m |], scaler as [s |];
    try (rewrite (analyze_safe_unloaded format_2f config latitude longitude
                    speed direction _ _ d H) by auto;
         eexists; repeat split; simpl; discriminate).
  destruct (classifier_outcome m s
              (features latitude longitude speed direction 1)) as [p | e] eqn:E.
  - rewrite (analyze_safe_label format_2f config latitude longitude speed
               direction m s d p H E).
    eexists. repeat split; simpl.
    + intros Hp. apply Z.eqb_eq in Hp. congruence.
    + intros Hp. injection Hp as ->. reflexivity.
  - rewrite (analyze_safe_failure format_2f config latitude longitude speed
               direction m s d e H E).
    eexists. repeat split; simpl; discriminate.
Qed.

(** C1. For every boat observation [analyze_boat_data] returns a verdict.
    Its zone status and distance are the ones [check_geofence_status] returns
    for the position; its prediction is absent in the alert zone and is the
    classifier's answer for the observation in the safe zone; and its
    [is_suspicious] flag is true if and only if the zone status is ALERT, or
    the zone status is SAFE and the classifier's prediction is 1
    (suspicious). *)
Theorem suspicious_iff_alert_or_flagged :
  forall (format_2f : pyfloat -> string) (config : GeofenceConfig)
         (model : option Model) (scaler : option Scaler)
         (latitude longitude speed direction : R),
  exists z d v,
    check_geofence_status config latitude longitude = Ok (z, d)
    /\ fst (analyze_boat_data format_2f config model scaler
              latitude longitude speed direction) = Ok v
    /\ Verdict.zone_status v = z
    /\ Verdict.distance v = d
    /\ Verdict.model_prediction v
       = (if (z =? ALERT)%Z then None
          else classifier_answer model scaler
                 (features latitude longitude speed direction z))
    /\ (Verdict.is_suspicious v = true
        <-> Verdict.zone_status v = ALERT
            \/ (Verdict.zone_status v = SAFE
                /\ Verdict.model_prediction v = Some 1%Z)).
Proof.
  intros format_2f config model scaler latitude longitude speed direction.
  destruct (check_geofence_status_total config latitude longitude)
    as (z & d & H & [-> | ->]); unfold ALERT, SAFE in *.
  - exists 0%Z, d. rewrite H.
    rewrite (analyze_alert format_2f config latitude longitude speed direction
               model scaler d H).
    eexists. repeat split; simpl; auto.
  - exists 1%Z, d. rewrite H.
    destruct (analyze_safe_answer format_2f config model scaler latitude
                longitude speed direction d H)
      as (v & Hv & Hz & Hd & Hp & Hiff).
    exists v. rewrite Hz, Hp, Hiff. repeat split; auto.
    intros [Hc | [_ Ha]]; [discriminate | exact Ha].
Qed.

(** C2. For every point and every threshold, [check_geofence_status] returns
    the code 0 (ALERT) exactly when the minimum distance computed by
    [check_boundary_distance] is less than or equal to the threshold, and the
    code 1 (SAFE) exactly when it is strictly greater: a distance equal to
    the threshold is ALERT. *)
Theorem alert_iff_within_threshold :
  forall (config : GeofenceConfig) (lat lng : R),
  exists z d,
    check_boundary_distance lat lng (boundary_line config) = Ok d
    /\ check_geofence_status config lat lng = Ok (z, d)
    /\ (z = ALERT <-> pf_le d (Fin (safe_distance_km config)))
    /\ (z = SAFE <-> pf_lt (Fin (safe_distance_km config)) d).
Proof.
  intros config lat lng.
  rewrite check_geofence_status_eq, check_boundary_distance_eq. cbv zeta.
  set (d := fold_left (closer lat lng) (boundary_line config) Inf).
  set (t := Fin (safe_distance_km config)).
  destruct (fle d t) eqn:E; eexists; exists d;
    (split; [reflexivity |]); (split; [reflexivity |]); unfold ALERT, SAFE.
  - apply fle_true_iff in E. rewrite pf_lt_not_le.
    split; split; intros; try discriminate; tauto.
  - apply fle_false_iff in E. pose proof E as E'.
    rewrite pf_lt_not_le in E'.
    split; split; intros; try discriminate; tauto.
Qed.

(** C3, as stated, fails: at latitude 9.0, longitude 79.8, against the
    configured boundary line and the 12 km margin, the verdict is not ALERT
    and not suspicious (here with no classifier loaded). *)
Lemma center_is_not_alert :
  ~ (exists v,
       fst (analyze_boat_data (fun _ => "") GEOFENCE_CONFIG None None
              9.0 79.8 0 0) = Ok v
       /\ Verdict.zone_status v = ALERT
       /\ Verdict.is_suspicious v = true).
Proof.
  intros (v & Hv & Hz & _).
  destruct center_is_safe as (d & H & _). unfold SAFE in H.
  rewrite (analyze_safe_unloaded _ _ _ _ _ _ None None _ H) in Hv by auto.
  simpl in Hv. injection Hv as <-. discriminate Hz.
Qed.

(** The vertex of the configured line nearest to the configured centre is
    [(8.9, 79.7)], between 15 and 16 km away. *)
Lemma center_nearest_vertex :
  exists d,
    haversine 9.0 79.8 8.9000 79.7000 = Ok d
    /\ fold_left (closer 9.0 79.8) (boundary_line GEOFENCE_CONFIG) Inf = Fin d
    /\ is_min_vertex_distance 9.0 79.8 (boundary_line GEOFENCE_CONFIG) d
    /\ 15 <= d <= 16.
Proof.
  destruct (fold_closer_nonempty 9.0 79.8 (boundary_line GEOFENCE_CONFIG))
    as (d & E & (v & Hin & Hd) & Hmin); [discriminate |].
  set (nearest := Point.mk 8.9000 79.7000).
  assert (Hnear : 15 <= vertex_km 9.0 79.8 nearest <= 16).
  { unfold vertex_km, nearest; simpl.
    replace 8.9000 with 8.9 by lra. replace 79.7000 with 79.7 by lra.
    split; [apply center_nearest_lower | apply center_nearest_upper]. }
  assert (Hle : d <= vertex_km 9.0 79.8 nearest).
  { apply Hmin. simpl. tauto. }
  assert (Hv : v = nearest).
  { simpl in Hin.
    destruct Hin as [<- | [<- | [<- | [<- | [<- | []]]]]];
      try reflexivity; exfalso;
      match type of Hd with
      | d = vertex_km _ _ (Point.mk ?vlat ?vlng) =>
          assert (92 * 0.2 <= vertex_km 9.0 79.8 (Point.mk vlat vlng))
            by (apply far_vertex; lra)
      end; lra. }
  subst v. exists d. split; [| split; [exact E | split; [| lra]]].
  - rewrite haversine_eq. subst d. reflexivity.
  - split.
    + exists nearest. split; [simpl; tauto |].
      rewrite haversine_eq. subst d. reflexivity.
    + intros w Hw. exists (vertex_km 9.0 79.8 w).
      split; [apply haversine_eq | apply Hmin; exact Hw].
Qed.

(** C3, amended. At latitude 9.0, longitude 79.8, against the configured
    boundary line, the minimum vertex distance is the haversine distance to
    the vertex [(8.9, 79.7)] and lies between 15 and 16 km: it is not within
    12 km.  Whenever the safe distance is at least that distance, the zone
    status is ALERT, [is_suspicious] is true and no prediction is recorded,
    whatever classifier is loaded; so it is for a safe distance of 12
    nautical miles, 22.224 km. *)
Theorem center_alert_within_margin :
  forall (format_2f : pyfloat -> string)
         (tamil_nadu sri_lanka : list Point.t) (threshold : R)
         (the_center : Point.t) (zoom : Z)
         (model : option Model) (scaler : option Scaler) (speed direction : R),
  exists d,
    haversine 9.0 79.8 8.9000 79.7000 = Ok d
    /\ check_boundary_distance 9.0 79.8 (boundary_line GEOFENCE_CONFIG)
       = Ok (Fin d)
    /\ is_min_vertex_distance 9.0 79.8 (boundary_line GEOFENCE_CONFIG) d
    /\ 15 <= d <= 16
    /\ (threshold < d
        \/ analyze_boat_data format_2f
             (mkConfig tamil_nadu sri_lanka (boundary_line GEOFENCE_CONFIG)
                threshold the_center zoom)
             model scaler 9.0 79.8 speed direction
           = (Ok (Verdict.mk true ALERT (alert_message format_2f (Fin d))
                    (Fin d) None), []))
    /\ analyze_boat_data format_2f
         (mkConfig tamil_nadu sri_lanka (boundary_line GEOFENCE_CONFIG)
            22.224 the_center zoom)
         model scaler 9.0 79.8 speed direction
       = (Ok (Verdict.mk true ALERT (alert_message format_2f (Fin d))
                (Fin d) None), []).
Proof.
  intros format_2f tamil_nadu sri_lanka threshold the_center zoom model scaler
    speed direction.
  destruct center_nearest_vertex as (d & Hhav & E & Hmin & Hd).
  assert (Halert : forall t, d <= t ->
            analyze_boat_data format_2f
              (mkConfig tamil_nadu sri_lanka (boundary_line GEOFENCE_CONFIG)
                 t the_center zoom)
              model scaler 9.0 79.8 speed direction
            = (Ok (Verdict.mk true ALERT (alert_message format_2f (Fin d))
                     (Fin d) None), [])).
  { intros t Ht. apply analyze_alert.
    rewrite check_geofence_status_eq.
    cbn [boundary_line safe_distance_km]. rewrite E. simpl. unfold Rleb.
    destruct (Rle_dec d t); [reflexivity | contradiction]. }
  exists d. split; [exact Hhav |].
  split; [rewrite check_boundary_distance_eq, E; reflexivity |].
  split; [exact Hmin |]. split; [exact Hd |]. split.
  - destruct (Rlt_le_dec threshold d) as [Hlt | Hle];
      [left; exact Hlt | right; apply Halert; exact Hle].
  - apply Halert. lra.
Qed.

(** C4, as stated, fails: on an empty boundary line
    [check_boundary_distance] does not raise. *)
Lemma empty_boundary_does_not_raise :
  ~ raises (check_boundary_distance 9.0 79.8 []).
Proof. intros [e He]. discriminate He. Qed.

(** C4, amended. On an empty boundary line [check_boundary_distance] returns
    [float('inf')] without raising, and [check_geofence_status] then
    classifies every point as SAFE, at distance [inf], whatever the
    threshold. *)
Theorem empty_boundary_is_safe_at_infinity :
  forall (lat lng : R) (tamil_nadu sri_lanka : list Point.t) (threshold : R)
         (the_center : Point.t) (zoom : Z),
    check_boundary_distance lat lng [] = Ok Inf
    /\ check_geofence_status
         (mkConfig tamil_nadu sri_lanka [] threshold the_center zoom) lat lng
       = Ok (SAFE, Inf).
Proof. intros. split; reflexivity. Qed.

(** C5. For every observation classified SAFE, with the model and the scaler
    both loaded, if the consultation of the classifier raises (in
    [scaler.transform], in [model.predict] or in the indexing of its result),
    [analyze_boat_data] still returns a complete verdict, with
    [is_suspicious = False] and [model_prediction = None]: the exception does
    not reach the caller. *)
Theorem classifier_failure_is_contained :
  forall (format_2f : pyfloat -> string) (config : GeofenceConfig)
         (the_model : Model) (the_scaler : Scaler)
         (latitude longitude speed direction : R)
         (d : pyfloat) (e : PyException),
    check_geofence_status config latitude longitude = Ok (SAFE, d) ->
    classifier_outcome the_model the_scaler
      (features latitude longitude speed direction SAFE) = Raise e ->
    fst (analyze_boat_data format_2f config (Some the_model) (Some the_scaler)
           latitude longitude speed direction)
    = Ok (Verdict.mk false SAFE (safe_message format_2f d) d None).
Proof.
  intros format_2f config the_model the_scaler latitude longitude speed
    direction d e H Hout.
  exact (analyze_safe_failure format_2f config latitude longitude speed
           direction the_model the_scaler d e H Hout).
Qed.

(** C5 at the configured centre, with a scaler that rejects its input. *)
Lemma classifier_failure_is_contained_witness :
  exists d,
    check_geofence_status GEOFENCE_CONFIG 9.0 79.8 = Ok (SAFE, Fin d)
    /\ fst (analyze_boat_data (fun _ => "15.63") GEOFENCE_CONFIG
              (Some (fun _ => Ok [1%Z]))
              (Some (fun _ => Raise (mkException "ValueError"
                                       "X has 6 features, expected 4")))
              9.0 79.8 10 45)
       = Ok (Verdict.mk false SAFE (safe_message (fun _ => "15.63") (Fin d))
               (Fin d) None).
Proof.
  destruct center_is_safe as (d & H & _). exists d. split; [exact H |].
  apply (classifier_failure_is_contained (fun _ => "15.63") GEOFENCE_CONFIG
           (fun _ => Ok [1%Z])
           (fun _ => Raise (mkException "ValueError"
                              "X has 6 features, expected 4"))
           9.0 79.8 10 45 (Fin d)
           (mkException "ValueError" "X has 6 features, expected 4")).
  - exact H.
  - reflexivity.
Defined.

(** C6. For every observation classified ALERT, [analyze_boat_data] returns
    [is_suspicious = True] and [model_prediction = None] whether or not a
    classifier is loaded, and the trace is empty: neither the scaler nor the
    model is called. *)
Theorem alert_zone_skips_classifier :
  forall (format_2f : pyfloat -> string) (config : GeofenceConfig)
         (model : option Model) (scaler : option Scaler)
         (latitude longitude speed direction : R) (d : pyfloat),
    check_geofence_status config latitude longitude = Ok (ALERT, d) ->
    analyze_boat_data format_2f config model scaler
      latitude longitude speed direction
    = (Ok (Verdict.mk true ALERT (alert_message format_2f d) d None), []).
Proof.
  intros format_2f config model scaler latitude longitude speed direction d H.
  exact (analyze_alert format_2f config latitude longitude speed direction
           model scaler d H).
Qed.

(** C6 on a vertex of the configured boundary line, with a classifier loaded
    that would answer "normal". *)
Lemma alert_zone_skips_classifier_witness :
  check_geofence_status GEOFENCE_CONFIG 9.22 79.8 = Ok (ALERT, Fin 0)
  /\ analyze_boat_data (fun _ => "0.00") GEOFENCE_CONFIG
       (Some (fun _ => Ok [0%Z])) (Some (fun X => Ok X)) 9.22 79.8 10 45
     = (Ok (Verdict.mk true ALERT (alert_message (fun _ => "0.00") (Fin 0))
              (Fin 0) None), []).
Proof.
  split; [exact vertex_is_alert |].
  apply (alert_zone_skips_classifier (fun _ => "0.00") GEOFENCE_CONFIG
           (Some (fun _ => Ok [0%Z])) (Some (fun X => Ok X))
           9.22 79.8 10 45 (Fin 0)).
  exact vertex_is_alert.
Defined.

(** C7. For every observation and every non-empty boundary line, the distance
    computed by [check_boundary_distance], which is the distance of the
    verdict, is finite, nonnegative and the minimum over the vertices [v] of
    the line of [haversine] from the observation to [v]: it is attained at a
    vertex and no vertex is closer. *)
Theorem distance_is_min_over_vertices :
  forall (format_2f : pyfloat -> string) (config : GeofenceConfig)
         (model : option Model) (scaler : option Scaler)
         (latitude longitude speed direction : R),
    boundary_line config <> [] ->
    exists d,
      check_boundary_distance latitude longitude (boundary_line config)
      = Ok (Fin d)
      /\ 0 <= d
      /\ is_min_vertex_distance latitude longitude (boundary_line config) d
      /\ exists v,
           fst (analyze_boat_data format_2f config model scaler
                  latitude longitude speed direction) = Ok v
           /\ Verdict.distance v = Fin d.
Proof.
  intros format_2f config model scaler latitude longitude speed direction Hne.
  destruct (fold_closer_nonempty latitude longitude _ Hne)
    as (d & E & (w & Hin & Hd) & Hmin).
  exists d. rewrite check_boundary_distance_eq, E.
  split; [reflexivity |]. split; [subst d; apply vertex_km_nonneg |]. split.
  - split.
    + exists w. split; [exact Hin |]. rewrite haversine_eq, Hd. reflexivity.
    + intros v Hv. exists (vertex_km latitude longitude v).
      split; [apply haversine_eq | apply Hmin; exact Hv].
  - pose proof (check_geofence_status_eq config latitude longitude) as H.
    cbv zeta in H. rewrite E in H.
    destruct (fle (Fin d) (Fin (safe_distance_km config))).
    + rewrite (analyze_alert format_2f config latitude longitude speed
                 direction model scaler _ H).
      eexists. split; reflexivity.
    + destruct (analyze_safe_verdict format_2f config latitude longitude speed
                  direction model scaler _ H) as (v & Hv & _ & Hdist & _).
      exists v. split; assumption.
Qed.

(** C7 at the configured centre against the configured boundary line. *)
Lemma distance_is_min_over_vertices_witness :
  boundary_line GEOFENCE_CONFIG <> []
  /\ exists d,
       check_boundary_distance 9.0 79.8 (boundary_line GEOFENCE_CONFIG)
       = Ok (Fin d)
       /\ 0 <= d
       /\ is_min_vertex_distance 9.0 79.8 (boundary_line GEOFENCE_CONFIG) d
       /\ exists v,
            fst (analyze_boat_data (fun _ => "15.63") GEOFENCE_CONFIG
                   None None 9.0 79.8 10 45) = Ok v
            /\ Verdict.distance v = Fin d.
Proof.
  split; [discriminate |].
  apply (distance_is_min_over_vertices (fun _ => "15.63") GEOFENCE_CONFIG
           None None 9.0 79.8 10 45).
  discriminate.
Defined.

(** C8. For every pair of points the haversine distance is symmetric:
    [haversine] from [p1] to [p2] equals [haversine] from [p2] to [p1]. *)
Theorem haversine_symmetric :
  forall lat1 lon1 lat2 lon2 : R,
    haversine lat1 lon1 lat2 lon2 = haversine lat2 lon2 lat1 lon1.
Proof.
  intros lat1 lon1 lat2 lon2. rewrite !haversine_eq.
  unfold haversine_km. rewrite (hav_a_sym lat1 lon1 lat2 lon2). reflexivity.
Qed.

(** C9. Two observations with the same latitude and longitude, whatever their
    speeds and directions, get verdicts with the same zone status and the
    same distance. *)
Theorem zone_depends_only_on_position :
  forall (format_2f : pyfloat -> string) (config : GeofenceConfig)
         (model : option Model) (scaler : option Scaler)
         (latitude longitude speed1 direction1 speed2 direction2 : R),
  exists v1 v2,
    fst (analyze_boat_data format_2f config model scaler
           latitude longitude speed1 direction1) = Ok v1
    /\ fst (analyze_boat_data format_2f config model scaler
              latitude longitude speed2 direction2) = Ok v2
    /\ Verdict.zone_status v1 = Verdict.zone_status v2
    /\ Verdict.distance v1 = Verdict.distance v2.
Proof.
  intros format_2f config model scaler latitude longitude
    speed1 direction1 speed2 direction2.
  destruct (check_geofence_status_total config latitude longitude)
    as (z & d & H & [-> | ->]); unfold ALERT, SAFE in *.
  - rewrite !(analyze_alert format_2f config latitude longitude _ _
                model scaler d H).
    do 2 eexists. repeat split; reflexivity.
  - destruct (analyze_safe_verdict format_2f config latitude longitude speed1
                direction1 model scaler d H) as (v1 & Hv1 & Hz1 & Hd1 & _).
    destruct (analyze_safe_verdict format_2f config latitude longitude speed2
                direction2 model scaler d H) as (v2 & Hv2 & Hz2 & Hd2 & _).
    exists v1, v2. repeat split; congruence.
Qed.

(** C10. If the model or the scaler is not loaded, the evaluation is the
    one made with neither loaded: no call to the scaler or to the model
    appears in the trace, and a SAFE verdict has [is_suspicious = False] and
    [model_prediction = None]. *)
Theorem classifier_needs_model_and_scaler :
  forall (format_2f : pyfloat -> string) (config : GeofenceConfig)
         (model : option Model) (scaler : option Scaler)
         (latitude longitude speed direction : R),
    model = None \/ scaler = None ->
    analyze_boat_data format_2f config model scaler
      latitude longitude speed direction
    = analyze_boat_data format_2f config None None
        latitude longitude speed direction
    /\ no_classifier_call
         (snd (analyze_boat_data format_2f config model scaler
                 latitude longitude speed direction))
    /\ exists v,
         fst (analyze_boat_data format_2f config model scaler
                latitude longitude speed direction) = Ok v
         /\ (Verdict.zone_status v = ALERT
             \/ (Verdict.zone_status v = SAFE
                 /\ Verdict.is_suspicious v = false
                 /\ Verdict.model_prediction v = None)).
Proof.
  intros format_2f config model scaler latitude longitude speed direction Hn.
  destruct (check_geofence_status_total config latitude longitude)
    as (z & d & H & [-> | ->]); unfold ALERT, SAFE in *.
  - rewrite !(analyze_alert format_2f config latitude longitude speed direction
                _ _ d H).
    split; [reflexivity |]. split; [intros ev [] |].
    eexists. split; [reflexivity |]. left. reflexivity.
  - rewrite (analyze_safe_unloaded format_2f config latitude longitude speed
               direction model scaler d H Hn).
    rewrite (analyze_safe_unloaded format_2f config latitude longitude speed
               direction None None d H) by auto.
    split; [reflexivity |]. split; [intros ev [] |].
    eexists. split; [reflexivity |]. right. repeat split; reflexivity.
Qed.

(** C10 at the configured centre, after a start-up in which the model file
    loads and the scaler file does not. *)
Lemma classifier_needs_model_and_scaler_witness :
  load_classifier true true (Ok (fun _ => Ok [1%Z]))
    (Raise (mkException "EOFError" "Ran out of input"))
  = (Some (fun _ => Ok [1%Z]), None)
  /\ analyze_boat_data (fun _ => "15.63") GEOFENCE_CONFIG
       (Some (fun _ => Ok [1%Z])) None 9.0 79.8 10 45
     = analyze_boat_data (fun _ => "15.63") GEOFENCE_CONFIG None None
         9.0 79.8 10 45.
Proof.
  split; [reflexivity |].
  apply (classifier_needs_model_and_scaler (fun _ => "15.63") GEOFENCE_CONFIG
           (Some (fun _ => Ok [1%Z])) None 9.0 79.8 10 45).
  right; reflexivity.
Defined.

(** * Further properties of the code *)

(** ** The distance calculator *)

(** X2. [haversine] returns 0 for two identical points. *)
Theorem haversine_same_point :
  forall lat lon : R, haversine lat lon lat lon = Ok 0.
Proof.
  intros lat lon. rewrite haversine_eq, haversine_km_same. reflexivity.
Qed.

(** ** The boundary evaluator *)

Lemma pf_le_antisym (x y : pyfloat) : pf_le x y -> pf_le y x -> x = y.
Proof.
  destruct x, y; simpl; try tauto. intros H1 H2. f_equal. lra.
Qed.

(** A line that has all the vertices of another is at most as far. *)
Lemma fold_closer_incl (lat lng : R) (line line' : list Point.t) :
  incl line line' ->
  pf_le (fold_left (closer lat lng) line' Inf)
        (fold_left (closer lat lng) line Inf).
Proof.
  intros Hincl. destruct line as [| w line].
  - simpl. destruct (fold_left _ line' Inf); exact I.
  - destruct (fold_closer_nonempty lat lng (w :: line))
      as (d & E & (v & Hin & ->) & _); [discriminate |].
    rewrite E. apply fold_closer_le_vertex. apply Hincl. exact Hin.
Qed.

(** X5. The distance to the boundary depends only on which vertices the line
    has, not on their order nor on how often each occurs. *)
Theorem boundary_distance_ignores_order :
  forall (lat lng : R) (line1 line2 : list Point.t),
    same_vertices line1 line2 ->
    check_boundary_distance lat lng line1
    = check_boundary_distance lat lng line2.
Proof.
  intros lat lng line1 line2 Hsame. rewrite !check_boundary_distance_eq.
  f_equal. apply pf_le_antisym; apply fold_closer_incl; intros v Hv;
    apply Hsame; exact Hv.
Qed.

(** X5 on the configured boundary line read from south to north. *)
Lemma boundary_distance_ignores_order_witness :
  same_vertices (boundary_line GEOFENCE_CONFIG)
    (rev (boundary_line GEOFENCE_CONFIG))
  /\ check_boundary_distance 9.0 79.8 (boundary_line GEOFENCE_CONFIG)
     = check_boundary_distance 9.0 79.8 (rev (boundary_line GEOFENCE_CONFIG)).
Proof.
  assert (H : same_vertices (boundary_line GEOFENCE_CONFIG)
                (rev (boundary_line GEOFENCE_CONFIG))).
  { intros v. apply in_rev. }
  split; [exact H |].
  apply (boundary_distance_ignores_order 9.0 79.8 _ _ H).
Defined.

(** X6. A position in the alert zone stays in the alert zone when vertices
    are added to the boundary line and when the safe distance is enlarged;
    the reported distance does not grow. *)
Theorem refining_boundary_keeps_alert :
  forall (config config' : GeofenceConfig) (lat lng : R) (d : pyfloat),
    incl (boundary_line config) (boundary_line config') ->
    safe_distance_km config <= safe_distance_km config' ->
    check_geofence_status config lat lng = Ok (ALERT, d) ->
    exists d',
      check_geofence_status config' lat lng = Ok (ALERT, d') /\ pf_le d' d.
Proof.
  intros config config' lat lng d Hincl Ht H.
  rewrite check_geofence_status_eq in H. cbv zeta in H.
  rewrite check_geofence_status_eq. cbv zeta.
  pose proof (fold_closer_incl lat lng _ _ Hincl) as Hle.
  set (d0 := fold_left (closer lat lng) (boundary_line config) Inf) in *.
  set (d1 := fold_left (closer lat lng) (boundary_line config') Inf) in *.
  destruct (fle d0 (Fin (safe_distance_km config))) eqn:E;
    [| discriminate H].
  injection H as <-. apply fle_true_iff in E.
  assert (E' : fle d1 (Fin (safe_distance_km config')) = true).
  { apply fle_true_iff. eapply pf_le_trans; [exact Hle |].
    eapply pf_le_trans; [exact E |]. simpl. exact Ht. }
  rewrite E'. exists d1. split; [reflexivity | exact Hle].
Qed.

(** X6 on a vertex of the configured line, after one more vertex is
    inserted and the margin is set to 12 nautical miles. *)
Lemma refining_boundary_keeps_alert_witness :
  exists d',
    check_geofence_status
      (mkConfig [] [] (Point.mk 9.36 79.85 :: boundary_line GEOFENCE_CONFIG)
         22.224 (Point.mk 9.0 79.8) 7)
      9.22 79.8 = Ok (ALERT, d')
    /\ pf_le d' (Fin 0).
Proof.
  apply (refining_boundary_keeps_alert GEOFENCE_CONFIG
           (mkConfig [] [] (Point.mk 9.36 79.85 :: boundary_line GEOFENCE_CONFIG)
              22.224 (Point.mk 9.0 79.8) 7)
           9.22 79.8 (Fin 0)).
  - intros v Hv. right. exact Hv.
  - simpl. lra.
  - exact vertex_is_alert.
Defined.

(** ** The decision engine *)

(** X7. The message of every verdict is determined by its other fields: the
    alert text in the alert zone, the safe text in the safe zone, followed by
    the warning exactly when the verdict is suspicious. *)
Theorem verdict_message_shape :
  forall (format_2f : pyfloat -> string) (config : GeofenceConfig)
         (model : option Model) (scaler : option Scaler)
         (latitude longitude speed direction : R),
  exists v,
    fst (analyze_boat_data format_2f config model scaler
           latitude longitude speed direction) = Ok v
    /\ Verdict.zone_message v
       = if (Verdict.zone_status v =? 0)%Z
         then alert_message format_2f (Verdict.distance v)
         else if Verdict.is_suspicious v
              then safe_message format_2f (Verdict.distance v)
                   ++ warning_suffix
              else safe_message format_2f (Verdict.distance v).
Proof.
  intros format_2f config model scaler latitude longitude speed direction.
  destruct (check_geofence_status_total config latitude longitude)
    as (z & d & H & [-> | ->]); unfold ALERT, SAFE in *.
  - rewrite (analyze_alert format_2f config latitude longitude speed direction
               model scaler d H).
    eexists. split; reflexivity.
  - destruct model as [m |], scaler as [s |];
      try (rewrite (analyze_safe_unloaded format_2f config latitude longitude
                      speed direction _ _ d H) by auto;
           eexists; split; reflexivity).
    destruct (classifier_outcome m s
                (features latitude longitude speed direction 1))
      as [p | e] eqn:E.
    + rewrite (analyze_safe_label format_2f config latitude longitude speed
                 direction m s d p H E).
      eexists. split; [reflexivity |]. simpl.
      destruct (p =? 1)%Z; reflexivity.
    + rewrite (analyze_safe_failure format_2f config latitude longitude speed
                 direction m s d e H E).
      eexists. split; reflexivity.
Qed.

(** X8. Whatever is loaded, the scaler is called at most once, and only on
    the row [latitude, longitude, speed, direction, 1, 0]; the model is
    called at most once, and only on what the scaler returned for that row;
    an error is printed only as the last event. *)
Theorem classifier_calls_shape :
  forall (format_2f : pyfloat -> string) (config : GeofenceConfig)
         (model : option Model) (scaler : option Scaler)
         (latitude longitude speed direction : R),
    let X := features latitude longitude speed direction 1 in
    let tr := snd (analyze_boat_data format_2f config model scaler
                     latitude longitude speed direction) in
    tr = []
    \/ exists the_model the_scaler,
         model = Some the_model /\ scaler = Some the_scaler
         /\ ((exists e, the_scaler X = Raise e
                        /\ tr = [scaler_transform X;
                                 print ("Error using model: "
                                        ++ exc_message e)])
             \/ exists X', the_scaler X = Ok X'
                  /\ (tr = [scaler_transform X; model_predict X']
                      \/ exists text,
                           tr = [scaler_transform X; model_predict X';
                                 print text])).
Proof.
  intros format_2f config model scaler latitude longitude speed direction X tr.
  subst tr.
  destruct (check_geofence_status_total config latitude longitude)
    as (z & d & H & [-> | ->]); unfold ALERT, SAFE in *.
  - rewrite (analyze_alert format_2f config latitude longitude speed direction
               model scaler d H). left. reflexivity.
  - destruct model as [m |], scaler as [s |];
      try (rewrite (analyze_safe_unloaded format_2f config latitude longitude
                      speed direction _ _ d H) by auto; left; reflexivity).
    right. exists m, s. split; [reflexivity |]. split; [reflexivity |].
    rewrite (analyze_safe_loaded format_2f config latitude longitude speed
               direction m s d H). cbv zeta. fold X.
    destruct (s X) as [X' | e]; [right; exists X' | left; exists e];
      (split; [reflexivity |]); [| reflexivity].
    destruct (m X') as [[| p ps] | e]; simpl; eauto.
Qed.

(** X9. The classifier cannot change the zone status or the distance of a
    verdict, and it cannot clear a suspicion: compared with the verdict
    obtained with nothing loaded, the zone and the distance are the same and
    the flag can only go from false to true. *)
Theorem classifier_only_raises_suspicion :
  forall (format_2f : pyfloat -> string) (config : GeofenceConfig)
         (model : option Model) (scaler : option Scaler)
         (latitude longitude speed direction : R),
  exists v0 v,
    fst (analyze_boat_data format_2f config None None
           latitude longitude speed direction) = Ok v0
    /\ fst (analyze_boat_data format_2f config model scaler
              latitude longitude speed direction) = Ok v
    /\ Verdict.zone_status v = Verdict.zone_status v0
    /\ Verdict.distance v = Verdict.distance v0
    /\ (Verdict.is_suspicious v0 = false \/ Verdict.is_suspicious v = true).
Proof.
  intros format_2f config model scaler latitude longitude speed direction.
  destruct (check_geofence_status_total config latitude longitude)
    as (z & d & H & [-> | ->]); unfold ALERT, SAFE in *.
  - rewrite !(analyze_alert format_2f config latitude longitude speed direction
                _ _ d H).
    do 2 eexists. repeat split; try reflexivity. right. reflexivity.
  - rewrite (analyze_safe_unloaded format_2f config latitude longitude speed
               direction None None d H) by auto.
    destruct (analyze_safe_verdict format_2f config latitude longitude speed
                direction model scaler d H) as (v & Hv & Hz & Hd & _).
    exists (Verdict.mk false 1 (safe_message format_2f d) d None), v.
    repeat split; try assumption. left. reflexivity.
Qed.

(** With the model or the scaler missing, an evaluation leaves no trace. *)
Lemma analyze_unloaded_trace (format_2f : pyfloat -> string)
    (config : GeofenceConfig) (model : option Model) (scaler : option Scaler)
    (latitude longitude speed direction : R) :
  model = None \/ scaler = None ->
  snd (analyze_boat_data format_2f config model scaler
         latitude longitude speed direction) = [].
Proof.
  intros Hnone.
  destruct (check_geofence_status_total config latitude longitude)
    as (z & d & H & [-> | ->]); unfold ALERT, SAFE in *.
  - rewrite (analyze_alert format_2f config latitude longitude speed direction
               model scaler d H). reflexivity.
  - rewrite (analyze_safe_unloaded format_2f config latitude longitude speed
               direction model scaler d H Hnone). reflexivity.
Qed.

(** X10. After start-up, the classifier is called during an evaluation only
    if both files existed and both loaded without error. *)
Theorem consulted_only_after_full_load :
  forall (format_2f : pyfloat -> string) (config : GeofenceConfig)
         (model_exists scaler_exists : bool)
         (load_model : result Model) (load_scaler : result Scaler)
         (latitude longitude speed direction : R) (ev : event),
    let globals :=
      load_classifier model_exists scaler_exists load_model load_scaler in
    In ev (snd (analyze_boat_data format_2f config (fst globals) (snd globals)
                  latitude longitude speed direction)) ->
    is_classifier_call ev = true ->
    model_exists = true /\ scaler_exists = true
    /\ (exists m, load_model = Ok m) /\ (exists s, load_scaler = Ok s).
Proof.
  intros format_2f config model_exists scaler_exists load_model load_scaler
    latitude longitude speed direction ev globals Hin Hcall.
  subst globals. unfold load_classifier in Hin.
  destruct model_exists, scaler_exists, load_model as [m | e1],
    load_scaler as [s | e2]; simpl in Hin;
    try (rewrite analyze_unloaded_trace in Hin by auto; destruct Hin).
  repeat split; eauto.
Qed.

(** X10 at the configured centre, after a start-up that found and loaded both
    files. *)
Lemma consulted_only_after_full_load_witness :
  In (scaler_transform (features 9.0 79.8 10 45 SAFE))
     (snd (analyze_boat_data (fun _ => "15.63") GEOFENCE_CONFIG
             (Some (fun _ => Ok [1%Z])) (Some (fun X => Ok X))
             9.0 79.8 10 45))
  /\ true = true /\ true = true
  /\ (exists m : Model, Ok (fun _ => Ok [1%Z]) = Ok m)
  /\ (exists s : Scaler, Ok (fun X => Ok X) = Ok s).
Proof.
  assert (H : In (scaler_transform (features 9.0 79.8 10 45 SAFE))
                (snd (analyze_boat_data (fun _ => "15.63") GEOFENCE_CONFIG
                        (Some (fun _ => Ok [1%Z])) (Some (fun X => Ok X))
                        9.0 79.8 10 45))).
  { destruct center_flagged_by_classifier as (d & E). rewrite E.
    left. reflexivity. }
  split; [exact H |].
  apply (consulted_only_after_full_load (fun _ => "15.63") GEOFENCE_CONFIG
           true true (Ok (fun _ => Ok [1%Z])) (Ok (fun X => Ok X))
           9.0 79.8 10 45
           (scaler_transform (features 9.0 79.8 10 45 SAFE)) H).
  reflexivity.
Defined.

(** ** Alerts *)

Lemma make_twilio_call_eq
    (environ : string -> option string)
    (twilio : string -> string -> string -> string -> string -> result string)
    (message : string) (tr : list effect) :
  make_twilio_call environ twilio message tt tr
  = (Ok (fst (alert_outcome environ twilio message)), tt,
     (tr ++ snd (alert_outcome environ twilio message))%list).
Proof.
  unfold make_twilio_call, alert_outcome, credentials_complete,
    TWILIO_ACCOUNT_SID, TWILIO_AUTH_TOKEN, TWILIO_PHONE_NUMBER,
    ALERT_RECIPIENT_NUMBER.
  destruct (forallb truthy _); simpl.
  - unfold io_try, io_bind, io_emit, io_lift, io_print, io_ret.
    destruct (twilio _ _ _ _ _) as [sid | e]; simpl;
      rewrite <- app_assoc; reflexivity.
  - unfold io_bind, io_print, io_emit, io_ret. reflexivity.
Qed.

(** X11. [make_twilio_call] never raises, whatever the Twilio client does,
    and only adds to the trace; it returns [True] exactly when the four
    credentials are set and non-empty and the client accepted the call. *)
Theorem make_twilio_call_reports_success :
  forall (environ : string -> option string)
         (twilio : string -> string -> string -> string -> string
                   -> result string)
         (message : string) (tr : list effect),
  exists b tr',
    make_twilio_call environ twilio message tt tr = (Ok b, tt, (tr ++ tr')%list)
    /\ (b = true
        <-> credentials_complete environ = true
            /\ exists sid,
                 twilio (text_of (environ "TWILIO_ACCOUNT_SID"))
                   (text_of (environ "TWILIO_AUTH_TOKEN")) (twiml_of message)
                   (text_of (environ "ALERT_RECIPIENT_NUMBER"))
                   (text_of (environ "TWILIO_PHONE_NUMBER")) = Ok sid).
Proof.
  intros environ twilio message tr. do 2 eexists.
  split; [apply make_twilio_call_eq |].
  unfold alert_outcome. destruct (credentials_complete environ).
  - destruct (twilio _ _ _ _ _) as [sid | e]; simpl.
    + split; eauto.
    + split; [discriminate |]. intros [_ [sid H]]. discriminate H.
  - simpl. split; [discriminate |]. intros [H _]. discriminate H.
Qed.

(** X12. [make_twilio_call] contacts Twilio once when the four credentials
    are set and non-empty, with the configured account, token and numbers
    and the TwiML of the message, and does not contact it at all when one is
    missing or empty. *)
Theorem twilio_contacted_only_with_credentials :
  forall (environ : string -> option string)
         (twilio : string -> string -> string -> string -> string
                   -> result string)
         (message : string) (tr : list effect),
  exists tr',
    snd (make_twilio_call environ twilio message tt tr) = (tr ++ tr')%list
    /\ twilio_calls tr'
       = if credentials_complete environ
         then [calls_create (text_of (environ "TWILIO_ACCOUNT_SID"))
                 (text_of (environ "TWILIO_AUTH_TOKEN")) (twiml_of message)
                 (text_of (environ "ALERT_RECIPIENT_NUMBER"))
                 (text_of (environ "TWILIO_PHONE_NUMBER"))]
         else [].
Proof.
  intros environ twilio message tr. eexists.
  rewrite make_twilio_call_eq. split; [reflexivity |].
  unfold alert_outcome. destruct (credentials_complete environ).
  - destruct (twilio _ _ _ _ _); reflexivity.
  - reflexivity.
Qed.

Lemma prefix_app (a b : string) : prefix a (a ++ b) = true.
Proof.
  induction a as [| c a IH]; simpl; [destruct b; reflexivity |].
  destruct (Ascii.ascii_dec c c); [exact IH | congruence].
Qed.

Lemma contains_substring_prefix (needle hay : string) :
  prefix needle hay = true -> contains_substring needle hay = true.
Proof.
  intros H. destruct hay; cbn [contains_substring]; rewrite H; reflexivity.
Qed.

Lemma contains_substring_here (needle rest : string) :
  contains_substring needle (needle ++ rest) = true.
Proof. apply contains_substring_prefix, prefix_app. Qed.

Lemma contains_substring_skip (needle skipped hay : string) :
  contains_substring needle hay = true ->
  contains_substring needle (skipped ++ hay) = true.
Proof.
  intros H. induction skipped as [| c skipped IH]; simpl; [exact H |].
  rewrite IH. apply orb_true_r.
Qed.

(** X13. The TwiML sent to Twilio contains the alert message verbatim. *)
Theorem twiml_contains_message :
  forall message : string,
    contains_substring message (twiml_of message) = true.
Proof.
  intros message. unfold twiml_of.
  do 4 apply contains_substring_skip. apply contains_substring_here.
Qed.

(** X14. The start-up warning about missing environment variables is printed
    exactly when [make_twilio_call] will skip its calls: both test the same
    four variables for a non-empty value. *)
Theorem startup_warning_iff_calls_skipped :
  forall environ : string -> option string,
    (startup_warning environ = [] <-> credentials_complete environ = true)
    /\ (missing_vars environ = [] <-> credentials_complete environ = true).
Proof.
  intros environ.
  unfold startup_warning, missing_vars, credentials_complete,
    required_env_vars. simpl.
  destruct (truthy (environ "TWILIO_ACCOUNT_SID")),
    (truthy (environ "TWILIO_AUTH_TOKEN")),
    (truthy (environ "TWILIO_PHONE_NUMBER")),
    (truthy (environ "ALERT_RECIPIENT_NUMBER")); simpl;
    split; split; intros H; try reflexivity; discriminate H.
Qed.

(** ** The handlers, case by case *)

Section HandlerFacts.

Variable format_2f : pyfloat -> string.
Variable str_float : R -> string.
Variable float_of_str : string -> result R.
Variable environ : string -> option string.
Variable config : GeofenceConfig.
Variable model : option Model.
Variable scaler : option Scaler.
Variable twilio : string -> string -> string -> string -> string
                  -> result string.
Variable encoder_error : Body -> option PyException.

Let api : result json -> IO unit (Body * Z) :=
  api_check_point format_2f str_float float_of_str environ config model
    scaler twilio encoder_error.

Let analyze (lat lng speed direction : R) : result Verdict.t * list event :=
  analyze_boat_data format_2f config model scaler lat lng speed direction.

(** A request whose body Flask cannot decode. *)
Lemma api_undecodable (e : PyException) (tr : list effect) :
  api (Raise e) tt tr = (Ok (ErrorBody "error" (exc_message e), 400%Z), tt, tr).
Proof. reflexivity. Qed.

(** A body that is not an object is answered with an error, untouched. *)
Lemma api_not_an_object (data : json) (tr : list effect) :
  (forall items, data <> JObject items) ->
  exists text, api (Ok data) tt tr = (Ok (ErrorBody "error" text, 400%Z), tt, tr).
Proof.
  intros Hno. subst api.
  unfold api_check_point, io_try, io_bind, io_lift, io_ret.
  destruct data as [| b | z | r | s | xs | items]; simpl;
    try (eexists; reflexivity).
  - destruct (contains_substring "latitude" s); simpl;
      [destruct (contains_substring "longitude" s); simpl |];
      eexists; reflexivity.
  - destruct (existsb _ xs); simpl;
      [destruct (existsb _ xs); simpl |]; eexists; reflexivity.
  - destruct (Hno items eq_refl).
Qed.

(** An object, through every branch. *)
Lemma api_object (items : list (string * json)) (tr : list effect) :
  api (Ok (JObject items)) tt tr
  = match assoc "latitude" items, assoc "longitude" items with
    | Some _, Some _ =>
        match observation_of float_of_str (JObject items) with
        | Raise e => (Ok (ErrorBody "error" (exc_message e), 400%Z), tt, tr)
        | Ok (lat, lng, speed, direction) =>
            match analyze lat lng speed direction with
            | (Raise e, core_trace) =>
                (Ok (ErrorBody "error" (exc_message e), 400%Z), tt,
                 (tr ++ map from_core core_trace)%list)
            | (Ok v, core_trace) =>
                let alert :=
                  if Verdict.is_suspicious v
                  then snd (alert_outcome environ twilio
                              (api_alert_message str_float (JObject items)
                                 lat lng speed direction))
                  else [] in
                match encoder_error (api_body v) with
                | Some e =>
                    (Ok (ErrorBody "error" (exc_message e), 400%Z), tt,
                     ((tr ++ map from_core core_trace) ++ alert)%list)
                | None =>
                    (Ok (api_body v, 200%Z), tt,
                     ((tr ++ map from_core core_trace) ++ alert)%list)
                end
            end
        end
    | _, _ => (Ok (ErrorBody "error" "Invalid data", 400%Z), tt, tr)
    end.
Proof.
  subst api analyze.
  unfold api_check_point, observation_of, io_try, io_bind, io_lift, io_ret.
  cbn [py_contains py_getitem py_get rbind].
  destruct (assoc "latitude" items) as [x_lat |]; [| reflexivity].
  destruct (assoc "longitude" items) as [x_lng |]; [| reflexivity].
  cbn [rbind].
  destruct (py_float float_of_str x_lat) as [lat | e]; [| reflexivity].
  destruct (py_float float_of_str x_lng) as [lng | e]; [| reflexivity].
  cbn [rbind].
  destruct (py_float float_of_str
              match assoc "speed" items with Some v => v | None => JInt 0 end)
    as [speed | e]; [| reflexivity].
  destruct (py_float float_of_str
              match assoc "direction" items with
              | Some v => v | None => JInt 0 end)
    as [direction | e]; [| reflexivity].
  cbn [rbind]. unfold io_analyze.
  destruct (analyze_boat_data format_2f config model scaler lat lng speed
              direction) as [[v | e] core_trace]; [| reflexivity].
  cbv zeta. unfold api_alert_message, api_body. cbn [py_contains].
  destruct (Verdict.is_suspicious v).
  - unfold io_sub.
    destruct (assoc "speed" items); destruct (assoc "direction" items);
      rewrite make_twilio_call_eq; unfold jsonify;
      destruct (encoder_error _); reflexivity.
  - rewrite app_nil_r. unfold jsonify. destruct (encoder_error _); reflexivity.
Qed.

Let page : Method -> list (string * string) -> IO Page.t Rendered :=
  predict_boat_status format_2f str_float float_of_str environ config model
    scaler twilio.

(** A request that is not a POST renders the empty page. *)
Lemma page_get (method : Method) (form : list (string * string))
    (locals : Page.t) (tr : list effect) :
  method <> POST ->
  page method form locals tr
  = (Ok (mkRendered "index1.html" None None None config),
     Page.mk None None None, tr).
Proof. destruct method; [reflexivity | reflexivity | congruence]. Qed.

(** A POST, through every branch. *)
Lemma page_post (form : list (string * string)) (locals : Page.t)
    (tr : list effect) :
  page POST form locals tr
  = match form_observation float_of_str form with
    | Raise e =>
        let error_msg := "Error processing request: " ++ exc_message e in
        (Ok (mkRendered "index1.html" None None None config),
         Page.mk None None None,
         (tr ++ [from_core (print error_msg); flash error_msg])%list)
    | Ok (latitude, longitude, speed, direction) =>
        match analyze latitude longitude speed direction with
        | (Raise e, core_trace) =>
            let error_msg := "Error processing request: " ++ exc_message e in
            (Ok (mkRendered "index1.html" None None None config),
             Page.mk None None None,
             ((tr ++ map from_core core_trace)
              ++ [from_core (print error_msg); flash error_msg])%list)
        | (Ok v, core_trace) =>
            let zone_message := Verdict.zone_message v in
            let flag := (if Verdict.is_suspicious v then 1 else 0)%Z in
            let outcome :=
              alert_outcome environ twilio
                (page_alert_message str_float latitude longitude speed
                   direction zone_message) in
            (Ok (mkRendered "index1.html" (Some flag) (Some zone_message)
                   (Some (Verdict.distance v)) config),
             Page.mk (Some flag) (Some zone_message)
               (Some (Verdict.distance v)),
             ((tr ++ map from_core core_trace)
              ++ (if Verdict.is_suspicious v
                  then snd outcome
                       ++ [flash (zone_message
                                  ++ (if fst outcome
                                      then " Phone alert has been sent."
                                      else " Failed to send phone alert."))]
                  else [flash zone_message]))%list)
        end
    end.
Proof.
  subst page analyze.
  unfold predict_boat_status, form_observation, io_try, io_bind, io_lift,
    io_ret, io_put, io_get, io_print, io_emit.
  destruct (x <- form_field form "latitude" ;; float_of_str x)%result
    as [latitude | e]; [| rewrite <- app_assoc; reflexivity].
  cbn [rbind].
  destruct (x <- form_field form "longitude" ;; float_of_str x)%result
    as [longitude | e]; [| rewrite <- app_assoc; reflexivity].
  cbn [rbind].
  destruct (x <- form_field form "speed" ;; float_of_str x)%result
    as [speed | e]; [| rewrite <- app_assoc; reflexivity].
  cbn [rbind].
  destruct (x <- form_field form "direction" ;; float_of_str x)%result
    as [direction | e]; [| rewrite <- app_assoc; reflexivity].
  cbn [rbind]. unfold io_analyze.
  destruct (analyze_boat_data format_2f config model scaler latitude longitude
              speed direction) as [[v | e] core_trace];
    [| rewrite <- app_assoc; reflexivity].
  cbv zeta. unfold page_alert_message.
  destruct (Verdict.is_suspicious v); [| reflexivity].
  unfold io_sub. rewrite make_twilio_call_eq.
  destruct (fst (alert_outcome _ _ _)); rewrite <- !app_assoc; reflexivity.
Qed.

End HandlerFacts.

(** ** The handlers *)

Lemma twilio_calls_app (tr1 tr2 : list effect) :
  twilio_calls (tr1 ++ tr2) = (twilio_calls tr1 ++ twilio_calls tr2)%list.
Proof. apply filter_app. Qed.

Lemma twilio_calls_from_core (core_trace : list event) :
  twilio_calls (map from_core core_trace) = [].
Proof.
  induction core_trace as [| ev rest IH]; [reflexivity | exact IH].
Qed.

Lemma flashes_from_core (core_trace : list event) :
  filter is_flash (map from_core core_trace) = [].
Proof.
  induction core_trace as [| ev rest IH]; [reflexivity | exact IH].
Qed.

Lemma alert_outcome_calls
    (environ : string -> option string)
    (twilio : string -> string -> string -> string -> string -> result string)
    (message : string) :
  twilio_calls (snd (alert_outcome environ twilio message))
  = if credentials_complete environ
    then [calls_create (text_of (environ "TWILIO_ACCOUNT_SID"))
            (text_of (environ "TWILIO_AUTH_TOKEN")) (twiml_of message)
            (text_of (environ "ALERT_RECIPIENT_NUMBER"))
            (text_of (environ "TWILIO_PHONE_NUMBER"))]
    else [].
Proof.
  unfold alert_outcome. destruct (credentials_complete environ);
    [destruct (twilio _ _ _ _ _) |]; reflexivity.
Qed.

Lemma alert_outcome_flashes
    (environ : string -> option string)
    (twilio : string -> string -> string -> string -> string -> result string)
    (message : string) :
  filter is_flash (snd (alert_outcome environ twilio message)) = [].
Proof.
  unfold alert_outcome. destruct (credentials_complete environ);
    [destruct (twilio _ _ _ _ _) |]; reflexivity.
Qed.

Lemma py_float_zero (float_of_str : string -> result R) :
  py_float float_of_str (JInt 0) = Ok 0.
Proof.
  unfold py_float.
  change (Z.abs 0 <? 2 ^ 1024 - 2 ^ 970)%Z with true. reflexivity.
Qed.

Section HandlerProperties.

Variable format_2f : pyfloat -> string.
Variable str_float : R -> string.
Variable float_of_str : string -> result R.
Variable environ : string -> option string.
Variable config : GeofenceConfig.
Variable model : option Model.
Variable scaler : option Scaler.
Variable twilio : string -> string -> string -> string -> string
                  -> result string.
Variable encoder_error : Body -> option PyException.

(** X15. [api_check_point] never raises: for every request, decodable or
    not, it returns either status 200 with the body built from a verdict or
    status 400 with an error body, and it only adds to the trace. *)
Theorem api_check_point_always_answers :
  forall (request_json : result json) (tr : list effect),
  exists body status tr',
    api_check_point format_2f str_float float_of_str environ config model
      scaler twilio encoder_error request_json tt tr
    = (Ok (body, status), tt, (tr ++ tr')%list)
    /\ ((status = 200%Z /\ exists v, body = api_body v)
        \/ (status = 400%Z /\ exists text, body = ErrorBody "error" text)).
Proof.
  intros [data | e] tr.
  - assert (Hobj : (exists items, data = JObject items)
                   \/ forall items, data <> JObject items).
    { destruct data; try (right; discriminate). left. eauto. }
    destruct Hobj as [[items ->] | Hno].
    + rewrite api_object.
      destruct (assoc "latitude" items), (assoc "longitude" items);
        try (exists (ErrorBody "error" "Invalid data"), 400%Z, [];
             rewrite app_nil_r; split; [reflexivity | right; eauto]).
      destruct (observation_of float_of_str (JObject items))
        as [[[[lat lng] speed] direction] | e].
      * destruct (analyze_boat_data _ _ _ _ lat lng speed direction)
          as [[v | e] core_trace].
        -- cbv zeta. destruct (encoder_error (api_body v)) as [e |];
             do 3 eexists; rewrite <- app_assoc;
             (split; [reflexivity |]); [right | left]; eauto.
        -- do 3 eexists. split; [reflexivity | right; eauto].
      * exists (ErrorBody "error" (exc_message e)), 400%Z, [].
        rewrite app_nil_r. split; [reflexivity | right; eauto].
    + destruct (api_not_an_object format_2f str_float float_of_str environ
                  config model scaler twilio encoder_error data tr Hno)
        as [text ->].
      exists (ErrorBody "error" text), 400%Z, [].
      rewrite app_nil_r. split; [reflexivity | right; eauto].
  - rewrite api_undecodable.
    exists (ErrorBody "error" (exc_message e)), 400%Z, [].
    rewrite app_nil_r. split; [reflexivity | right; eauto].
Qed.

(** X16. A JSON object without a [latitude] key or without a [longitude] key
    is answered with status 400 and the message "Invalid data"; nothing is
    evaluated and no call is placed. *)
Theorem api_missing_coordinate_is_invalid :
  forall (items : list (string * json)) (tr : list effect),
    assoc "latitude" items = None \/ assoc "longitude" items = None ->
    api_check_point format_2f str_float float_of_str environ config model
      scaler twilio encoder_error (Ok (JObject items)) tt tr
    = (Ok (ErrorBody "error" "Invalid data", 400%Z), tt, tr).
Proof.
  intros items tr Hmiss. rewrite api_object.
  destruct (assoc "latitude" items), (assoc "longitude" items);
    destruct Hmiss; try discriminate; reflexivity.
Qed.

(** X17. A request whose body is not a JSON object (it cannot be decoded, or
    it is [null], a boolean, a number, a string or an array) is answered
    with status 400; nothing is evaluated and no call is placed. *)
Theorem api_rejects_non_objects :
  forall (request_json : result json) (tr : list effect),
    (forall items, request_json <> Ok (JObject items)) ->
    exists text,
      api_check_point format_2f str_float float_of_str environ config model
        scaler twilio encoder_error request_json tt tr
      = (Ok (ErrorBody "error" text, 400%Z), tt, tr).
Proof.
  intros [data | e] tr Hno.
  - apply api_not_an_object. intros items ->. exact (Hno items eq_refl).
  - rewrite api_undecodable. eauto.
Qed.

(** X18. Every call [api_check_point] places through Twilio is for an
    observation, read from a JSON object, whose verdict is suspicious. *)
Theorem api_calls_only_for_suspicious :
  forall (request_json : result json) (ef : effect),
    In ef (snd (api_check_point format_2f str_float float_of_str environ
                  config model scaler twilio encoder_error request_json
                  tt [])) ->
    is_twilio_call ef = true ->
    exists items lat lng speed direction v,
      request_json = Ok (JObject items)
      /\ observation_of float_of_str (JObject items)
         = Ok (lat, lng, speed, direction)
      /\ fst (analyze_boat_data format_2f config model scaler
                lat lng speed direction) = Ok v
      /\ Verdict.is_suspicious v = true.
Proof.
  intros request_json ef Hin Hcall.
  assert (Hobj : (exists items, request_json = Ok (JObject items))
                 \/ exists text,
                      api_check_point format_2f str_float float_of_str environ
                        config model scaler twilio encoder_error request_json
                        tt []
                      = (Ok (ErrorBody "error" text, 400%Z), tt, [])).
  { destruct request_json as [data | e].
    - assert (Hdata : (exists items, data = JObject items)
                      \/ forall items, data <> JObject items).
      { destruct data; try (right; discriminate). left. eauto. }
      destruct Hdata as [[items ->] | Hno]; [left; eauto | right].
      apply api_not_an_object. exact Hno.
    - right. rewrite api_undecodable. eauto. }
  destruct Hobj as [[items ->] | [text E]].
  - rewrite api_object in Hin.
    destruct (assoc "latitude" items), (assoc "longitude" items);
      try destruct Hin.
    destruct (observation_of float_of_str (JObject items))
      as [[[[lat lng] speed] direction] | e] eqn:Eobs; [| destruct Hin].
    destruct (analyze_boat_data format_2f config model scaler lat lng speed
                direction) as [[v | e] core_trace] eqn:Ean.
    + exists items, lat, lng, speed, direction, v.
      rewrite Ean. split; [reflexivity |]. split; [exact Eobs |].
      split; [reflexivity |].
      destruct (Verdict.is_suspicious v); [reflexivity |].
      exfalso. cbv zeta in Hin.
      assert (Hcore : In ef (map from_core core_trace)).
      { destruct (encoder_error (api_body v)); simpl in Hin;
          rewrite app_nil_r in Hin; exact Hin. }
      apply in_map_iff in Hcore. destruct Hcore as (ev & <- & _).
      discriminate Hcall.
    + exfalso. simpl in Hin.
      apply in_map_iff in Hin. destruct Hin as (ev & <- & _).
      discriminate Hcall.
  - rewrite E in Hin. destruct Hin.
Qed.

(** X19. With the configured geofence, for a JSON object whose four fields
    convert to numbers, with a position in the monitored waters (latitude 0
    to 20, longitude 70 to 90), and a verdict [jsonify] can encode, the
    response has status 200 and mirrors the verdict; a call is placed
    through Twilio exactly when the verdict is suspicious and the
    credentials are complete, and its TwiML carries the alert text of this
    observation. *)
Theorem api_response_mirrors_verdict :
  forall (items : list (string * json)) (lat lng speed direction : R)
         (v : Verdict.t),
    observation_of float_of_str (JObject items)
    = Ok (lat, lng, speed, direction) ->
    0 <= lat <= 20 ->
    70 <= lng <= 90 ->
    fst (analyze_boat_data format_2f GEOFENCE_CONFIG model scaler
           lat lng speed direction) = Ok v ->
    encoder_error (api_body v) = None ->
    let outcome :=
      api_check_point format_2f str_float float_of_str environ
        GEOFENCE_CONFIG model scaler twilio encoder_error
        (Ok (JObject items)) tt [] in
    fst (fst outcome)
    = Ok (CheckPointBody (Verdict.zone_status v =? 1)%Z
            (Verdict.is_suspicious v) (Verdict.zone_status v)
            (Verdict.distance v) (Verdict.zone_message v)
            (Verdict.model_prediction v), 200%Z)
    /\ twilio_calls (snd outcome)
       = if Verdict.is_suspicious v && credentials_complete environ
         then [calls_create (text_of (environ "TWILIO_ACCOUNT_SID"))
                 (text_of (environ "TWILIO_AUTH_TOKEN"))
                 (twiml_of (api_alert_message str_float (JObject items)
                              lat lng speed direction))
                 (text_of (environ "ALERT_RECIPIENT_NUMBER"))
                 (text_of (environ "TWILIO_PHONE_NUMBER"))]
         else [].
Proof.
  intros items lat lng speed direction v Hobs _ _ Han Henc outcome.
  subst outcome. rewrite api_object.
  assert (Hkeys : exists x y, assoc "latitude" items = Some x
                              /\ assoc "longitude" items = Some y).
  { unfold observation_of in Hobs. cbn [py_getitem] in Hobs.
    destruct (assoc "latitude" items) as [x |]; [| discriminate Hobs].
    cbn [rbind] in Hobs.
    destruct (py_float float_of_str x); [| discriminate Hobs].
    cbn [rbind] in Hobs.
    destruct (assoc "longitude" items) as [y |]; [| discriminate Hobs].
    eauto. }
  destruct Hkeys as (x & y & -> & ->). rewrite Hobs.
  destruct (analyze_boat_data format_2f GEOFENCE_CONFIG model scaler lat lng
              speed direction) as [r core_trace].
  simpl in Han. subst r. cbv zeta. rewrite Henc.
  split; [reflexivity |].
  cbn [snd app]. rewrite twilio_calls_app, twilio_calls_from_core.
  destruct (Verdict.is_suspicious v); [| reflexivity].
  cbn [app andb]. apply alert_outcome_calls.
Qed.

(** X20. The response of [api_check_point] does not depend on the alert
    channel: with other credentials and another Twilio client (one that
    fails, say) the body and the status are the same. *)
Theorem api_response_ignores_alert_channel :
  forall (environ' : string -> option string)
         (twilio' : string -> string -> string -> string -> string
                    -> result string)
         (request_json : result json) (tr tr' : list effect),
    fst (fst (api_check_point format_2f str_float float_of_str environ config
                model scaler twilio encoder_error request_json tt tr))
    = fst (fst (api_check_point format_2f str_float float_of_str environ'
                  config model scaler twilio' encoder_error request_json
                  tt tr')).
Proof.
  intros environ' twilio' [data | e] tr tr'; [| reflexivity].
  assert (Hdata : (exists items, data = JObject items)
                  \/ forall items, data <> JObject items).
  { destruct data; try (right; discriminate). left. eauto. }
  destruct Hdata as [[items ->] | Hno].
  - rewrite !api_object.
    destruct (assoc "latitude" items), (assoc "longitude" items);
      try reflexivity.
    destruct (observation_of float_of_str (JObject items))
      as [[[[lat lng] speed] direction] | e]; [| reflexivity].
    destruct (analyze_boat_data format_2f config model scaler lat lng speed
                direction) as [[v | e] core_trace]; [| reflexivity].
    cbv zeta. destruct (encoder_error (api_body v)); reflexivity.
  - unfold api_check_point, io_try, io_bind, io_lift, io_ret.
    destruct data as [| b | z | r | s | xs | items]; simpl; try reflexivity.
    + destruct (contains_substring "latitude" s); simpl;
        [destruct (contains_substring "longitude" s); simpl |]; reflexivity.
    + destruct (existsb _ xs); simpl;
        [destruct (existsb _ xs); simpl |]; reflexivity.
    + destruct (Hno items eq_refl).
Qed.

(** X21. Leaving [speed] and [direction] out of the JSON object gives the
    same response as sending 0 for both. *)
Theorem api_speed_direction_default_to_zero :
  forall (items : list (string * json)) (tr : list effect),
    assoc "speed" items = None ->
    assoc "direction" items = None ->
    fst (fst (api_check_point format_2f str_float float_of_str environ config
                model scaler twilio encoder_error (Ok (JObject items))
                tt tr))
    = fst (fst (api_check_point format_2f str_float float_of_str environ
                  config model scaler twilio encoder_error
                  (Ok (JObject (("speed", JInt 0) :: ("direction", JInt 0)
                                  :: items)))
                  tt tr)).
Proof.
  intros items tr Hs Hd. rewrite !api_object.
  unfold observation_of. cbn [assoc py_getitem py_get String.eqb Ascii.eqb
                                Bool.eqb].
  rewrite Hs, Hd.
  destruct (assoc "latitude" items) as [x |]; [| reflexivity].
  destruct (assoc "longitude" items) as [y |]; [| reflexivity].
  cbn [rbind].
  destruct (py_float float_of_str x) as [lat |]; [| reflexivity].
  destruct (py_float float_of_str y) as [lng |]; [| reflexivity].
  cbn [rbind]. rewrite !py_float_zero. cbn [rbind].
  destruct (analyze_boat_data format_2f config model scaler lat lng
              0 0) as [[v | e] core_trace]; [| reflexivity].
  cbv zeta. destruct (encoder_error (api_body v)); reflexivity.
Qed.

(** X22. [predict_boat_status] never raises; it renders [index1.html],
    flashes exactly one message on a POST and none on any other method, and
    the prediction it renders is absent, 0 or 1. *)
Theorem page_flashes_once_per_post :
  forall (method : Method) (form : list (string * string))
         (locals : Page.t) (tr : list effect),
  exists page locals' tr',
    predict_boat_status format_2f str_float float_of_str environ config model
      scaler twilio method form locals tr
    = (Ok page, locals', (tr ++ tr')%list)
    /\ template_name page = "index1.html"
    /\ length (filter is_flash tr')
       = match method with POST => 1%nat | GET | HEAD => 0%nat end
    /\ (prediction page = None \/ prediction page = Some 0%Z
        \/ prediction page = Some 1%Z).
Proof.
  intros [| |] form locals tr.
  - rewrite page_get by discriminate. do 2 eexists. exists [].
    rewrite app_nil_r. repeat split; auto.
  - rewrite page_get by discriminate. do 2 eexists. exists [].
    rewrite app_nil_r. repeat split; auto.
  - rewrite page_post.
    destruct (form_observation float_of_str form)
      as [[[[latitude longitude] speed] direction] | e].
    + destruct (analyze_boat_data format_2f config model scaler latitude
                  longitude speed direction) as [[v | e] core_trace].
      * cbv zeta. do 3 eexists. rewrite <- app_assoc.
        split; [reflexivity |]. split; [reflexivity |]. split.
        -- rewrite filter_app, flashes_from_core.
           destruct (Verdict.is_suspicious v); [| reflexivity].
           cbn [app]. rewrite filter_app, alert_outcome_flashes. reflexivity.
        -- destruct (Verdict.is_suspicious v); simpl; auto.
      * cbv zeta. do 3 eexists. rewrite <- app_assoc.
        split; [reflexivity |]. split; [reflexivity |]. split; [| auto].
        rewrite filter_app, flashes_from_core. reflexivity.
    + cbv zeta. do 3 eexists.
      split; [reflexivity |]. split; [reflexivity |]. split; auto.
Qed.

(** X23. A POST with a missing field, or a field that is not a number,
    renders the empty page (no prediction, no message, no distance), prints
    and flashes the error, and evaluates nothing: no call is placed. *)
Theorem page_rejects_bad_form :
  forall (form : list (string * string)) (locals : Page.t)
         (tr : list effect) (e : PyException),
    form_observation float_of_str form = Raise e ->
    predict_boat_status format_2f str_float float_of_str environ config model
      scaler twilio POST form locals tr
    = (Ok (mkRendered "index1.html" None None None config),
       Page.mk None None None,
       (tr ++ [from_core (print ("Error processing request: "
                                 ++ exc_message e));
               flash ("Error processing request: " ++ exc_message e)])%list).
Proof.
  intros form locals tr e H. rewrite page_post, H. reflexivity.
Qed.


End HandlerProperties.

(** ** The handlers on concrete requests

    A boat on the vertex [(9.22, 79.8)] of the configured boundary line, with
    no classifier loaded, complete credentials and a Twilio client that
    accepts the call. *)

Lemma analyze_at_vertex (speed direction : R) :
  analyze_boat_data (fun _ => "0.00") GEOFENCE_CONFIG None None
    9.22 79.8 speed direction
  = (Ok (Verdict.mk true ALERT (alert_message (fun _ => "0.00") (Fin 0))
           (Fin 0) None), []).
Proof. apply analyze_alert. exact vertex_is_alert. Qed.

Lemma api_at_vertex :
  api_check_point (fun _ => "0.00") (fun _ => "9.22")
    (fun _ => Raise (mkException "ValueError" "could not convert"))
    (fun _ => Some "x") GEOFENCE_CONFIG None None
    (fun _ _ _ _ _ => Ok "CA1") (fun _ => None)
    (Ok (JObject [("latitude", JFloat 9.22); ("longitude", JFloat 79.8)]))
    tt []
  = (Ok (CheckPointBody false true ALERT (Fin 0)
           (alert_message (fun _ => "0.00") (Fin 0)) None, 200%Z),
     tt,
     [calls_create "x" "x"
        (twiml_of "Alert! Boat detected in restricted zone at coordinates: 9.22, 9.22.")
        "x" "x";
      from_core (print "Alert call initiated. Call SID: CA1")]).
Proof.
  rewrite api_object. unfold observation_of.
  cbn [assoc py_getitem py_get rbind String.eqb Ascii.eqb Bool.eqb].
  rewrite !py_float_zero. cbn [py_float rbind].
  rewrite analyze_at_vertex. reflexivity.
Qed.

(** X16 on an object that has a latitude and no longitude. *)
Lemma api_missing_coordinate_is_invalid_witness :
  api_check_point (fun _ => "0.00") (fun _ => "9.22")
    (fun _ => Raise (mkException "ValueError" "could not convert"))
    (fun _ => Some "x") GEOFENCE_CONFIG None None
    (fun _ _ _ _ _ => Ok "CA1") (fun _ => None)
    (Ok (JObject [("latitude", JFloat 9.22)])) tt []
  = (Ok (ErrorBody "error" "Invalid data", 400%Z), tt, []).
Proof.
  apply (api_missing_coordinate_is_invalid (fun _ => "0.00") (fun _ => "9.22")
           (fun _ => Raise (mkException "ValueError" "could not convert"))
           (fun _ => Some "x") GEOFENCE_CONFIG None None
           (fun _ _ _ _ _ => Ok "CA1") (fun _ => None)
           [("latitude", JFloat 9.22)] []).
  right. reflexivity.
Defined.

(** X17 on an array that contains both key names. *)
Lemma api_rejects_non_objects_witness :
  exists text,
    api_check_point (fun _ => "0.00") (fun _ => "9.22")
      (fun _ => Raise (mkException "ValueError" "could not convert"))
      (fun _ => Some "x") GEOFENCE_CONFIG None None
      (fun _ _ _ _ _ => Ok "CA1") (fun _ => None)
      (Ok (JArray [JString "latitude"; JString "longitude"])) tt []
    = (Ok (ErrorBody "error" text, 400%Z), tt, []).
Proof.
  apply (api_rejects_non_objects (fun _ => "0.00") (fun _ => "9.22")
           (fun _ => Raise (mkException "ValueError" "could not convert"))
           (fun _ => Some "x") GEOFENCE_CONFIG None None
           (fun _ _ _ _ _ => Ok "CA1") (fun _ => None)
           (Ok (JArray [JString "latitude"; JString "longitude"])) []).
  intros items H. discriminate H.
Defined.

(** X18 on the call placed for the boat on the vertex. *)
Lemma api_calls_only_for_suspicious_witness :
  exists items lat lng speed direction v,
    Ok (JObject [("latitude", JFloat 9.22); ("longitude", JFloat 79.8)])
    = Ok (JObject items)
    /\ observation_of
         (fun _ => Raise (mkException "ValueError" "could not convert"))
         (JObject items)
       = Ok (lat, lng, speed, direction)
    /\ fst (analyze_boat_data (fun _ => "0.00") GEOFENCE_CONFIG None None
              lat lng speed direction) = Ok v
    /\ Verdict.is_suspicious v = true.
Proof.
  apply (api_calls_only_for_suspicious (fun _ => "0.00") (fun _ => "9.22")
           (fun _ => Raise (mkException "ValueError" "could not convert"))
           (fun _ => Some "x") GEOFENCE_CONFIG None None
           (fun _ _ _ _ _ => Ok "CA1") (fun _ => None)
           (Ok (JObject [("latitude", JFloat 9.22);
                         ("longitude", JFloat 79.8)]))
           (calls_create "x" "x"
              (twiml_of "Alert! Boat detected in restricted zone at coordinates: 9.22, 9.22.")
              "x" "x")).
  - rewrite api_at_vertex. left. reflexivity.
  - reflexivity.
Defined.

(** X19 on the boat on the vertex. *)
Lemma api_response_mirrors_verdict_witness :
  fst (fst (api_check_point (fun _ => "0.00") (fun _ => "9.22")
              (fun _ => Raise (mkException "ValueError" "could not convert"))
              (fun _ => Some "x") GEOFENCE_CONFIG None None
              (fun _ _ _ _ _ => Ok "CA1") (fun _ => None)
              (Ok (JObject [("latitude", JFloat 9.22);
                            ("longitude", JFloat 79.8)])) tt []))
  = Ok (CheckPointBody false true ALERT (Fin 0)
          (alert_message (fun _ => "0.00") (Fin 0)) None, 200%Z).
Proof.
  apply (api_response_mirrors_verdict (fun _ => "0.00") (fun _ => "9.22")
           (fun _ => Raise (mkException "ValueError" "could not convert"))
           (fun _ => Some "x") None None
           (fun _ _ _ _ _ => Ok "CA1") (fun _ => None)
           [("latitude", JFloat 9.22); ("longitude", JFloat 79.8)]
           9.22 79.8 (IZR 0) (IZR 0)
           (Verdict.mk true ALERT (alert_message (fun _ => "0.00") (Fin 0))
              (Fin 0) None)).
  - reflexivity.
  - lra.
  - lra.
  - rewrite analyze_at_vertex. reflexivity.
  - reflexivity.
Defined.

(** X21 on the boat on the vertex. *)
Lemma api_speed_direction_default_to_zero_witness :
  fst (fst (api_check_point (fun _ => "0.00") (fun _ => "9.22")
              (fun _ => Raise (mkException "ValueError" "could not convert"))
              (fun _ => Some "x") GEOFENCE_CONFIG None None
              (fun _ _ _ _ _ => Ok "CA1") (fun _ => None)
              (Ok (JObject [("latitude", JFloat 9.22);
                            ("longitude", JFloat 79.8)])) tt []))
  = fst (fst (api_check_point (fun _ => "0.00") (fun _ => "9.22")
                (fun _ => Raise (mkException "ValueError" "could not convert"))
                (fun _ => Some "x") GEOFENCE_CONFIG None None
                (fun _ _ _ _ _ => Ok "CA1") (fun _ => None)
                (Ok (JObject [("speed", JInt 0); ("direction", JInt 0);
                              ("latitude", JFloat 9.22);
                              ("longitude", JFloat 79.8)])) tt [])).
Proof.
  apply (api_speed_direction_default_to_zero (fun _ => "0.00")
           (fun _ => "9.22")
           (fun _ => Raise (mkException "ValueError" "could not convert"))
           (fun _ => Some "x") GEOFENCE_CONFIG None None
           (fun _ _ _ _ _ => Ok "CA1") (fun _ => None)
           [("latitude", JFloat 9.22); ("longitude", JFloat 79.8)] []);
    reflexivity.
Defined.

(** X23 on a form without a longitude. *)
Lemma page_rejects_bad_form_witness :
  predict_boat_status (fun _ => "0.00") (fun _ => "9.22")
    (fun _ => Ok 9.22) (fun _ => Some "x") GEOFENCE_CONFIG None None
    (fun _ _ _ _ _ => Ok "CA1") POST [("latitude", "9.22")]
    (Page.mk None None None) []
  = (Ok (mkRendered "index1.html" None None None GEOFENCE_CONFIG),
     Page.mk None None None,
     [from_core
        (print "Error processing request: 400 Bad Request: The browser (or proxy) sent a request that this server could not understand.");
      flash "Error processing request: 400 Bad Request: The browser (or proxy) sent a request that this server could not understand."]).
Proof.
  apply (page_rejects_bad_form (fun _ => "0.00") (fun _ => "9.22")
           (fun _ => Ok 9.22) (fun _ => Some "x") GEOFENCE_CONFIG None None
           (fun _ _ _ _ _ => Ok "CA1") [("latitude", "9.22")]
           (Page.mk None None None) []
           (mkException "BadRequestKeyError"
              "400 Bad Request: The browser (or proxy) sent a request that this server could not understand.")).
  reflexivity.
Defined.

